(** * dataforge: solution verification, security audit and calibration

    A shallow embedding of three programs of the repository:

    - [generated-datasets/verify_solution.py]  (class [SolutionVerifier]),
    - [generated-datasets/workspace-python-api/verification/verify_fixes.py]
      (class [SecurityVerifier] and [main]),
    - [scripts/benchmark_evaluation.py]  (function [analyze_results]).

    Python values are modelled as follows.  A [str] is the [string] of
    the UTF-8 bytes of its text: equality, [startswith] and [in] are
    those of the bytes, and a slice [s[:n]] counts characters, that is the
    bytes that are not continuation bytes.  [str.lower()] follows the
    Unicode database of the interpreter: where the lowered texts are
    searched ([output_contains]) it is an oracle of the world, and where a
    lowered text is only compared with "true" or "false" ([file_exists]) it
    is [lower], which acts on the ASCII letters and decides that equality
    as [str.lower()] does.  An [int] is [nat] for counts and [Z] for
    points, a [dict] used as a map is an association list in insertion
    order, [None] is [None].

    A [float] is modelled in two ways.  The two score percentages are one
    quotient of two integers, compared with a threshold and rounded for
    display: they are exact rationals [Q].  The binary64 quotient differs
    from the exact one by a relative error near 1e-16, which does not
    change the comparison with a threshold for any number of checks a run
    can hold.  It does decide the rounding to one decimal where the exact
    percentage lies halfway between two decimals (23 passed of 80 is
    28.75: the binary64 product is just below and is reported as 28.7,
    see [score_at_a_tie]); so what is stated of a reported percentage is
    that it is a decimal within 0.05 of the exact one, which is the
    nearest decimal away from such ties.  The durations and rates of the
    calibrator are IEEE binary64 values, [float], with the kernel's
    arithmetic; [sum] on them is the compensated summation of CPython 3.12
    and later ([sum_float]), the plain left fold of earlier versions is
    [sum_float_plain].

    What the programs ask of the outside (the file system, a shell, the
    [re] engine) is a record of oracles; an exception is a value of
    [exception], and a call that may raise returns a [Result]. *)

From Stdlib Require Import String Ascii List ZArith QArith Qround Bool Lia.
From Stdlib Require Import Permutation DecimalString Floats Uint63.
From Stdlib Require Import Lqa.
Import ListNotations.

Local Open Scope list_scope.
Local Open Scope string_scope.

(** ** Python builtins used by the three programs *)

Module Py.

(** The exception classes the programs raise, catch or let through.  All of
    them derive from [Exception]. *)
Inductive exception : Type :=
| TimeoutExpired (msg : string)      (* subprocess.TimeoutExpired *)
| FileNotFoundError (msg : string)   (* an OSError *)
| OSError (msg : string)             (* IOError is OSError in Python 3 *)
| UnicodeDecodeError (msg : string)  (* a ValueError *)
| ReError (msg : string)             (* re.error *)
| TypeError (msg : string)
| OtherException (msg : string).

(** [str(e)] *)
Definition exc_str (e : exception) : string :=
  match e with
  | TimeoutExpired m | FileNotFoundError m | OSError m | UnicodeDecodeError m
  | ReError m | TypeError m | OtherException m => m
  end.

(** [isinstance(e, IOError)]: OSError and its subclasses. *)
Definition is_IOError (e : exception) : bool :=
  match e with
  | FileNotFoundError _ | OSError _ => true
  | _ => false
  end.

Inductive Result (A : Type) : Type :=
| Ok (a : A)
| Raise (e : exception).
Arguments Ok {A} a.
Arguments Raise {A} e.

Definition lower_ascii (c : ascii) : ascii :=
  let n := nat_of_ascii c in
  if (65 <=? n)%nat && (n <=? 90)%nat then ascii_of_nat (n + 32) else c.

(** [s.lower()] *)
Fixpoint lower (s : string) : string :=
  match s with
  | EmptyString => EmptyString
  | String c s' => String (lower_ascii c) (lower s')
  end.

(** [s.startswith(p)] *)
Definition startswith (p s : string) : bool := String.prefix p s.

(** [s.endswith(p)] for a one-character [p] *)
Fixpoint endswith_char (c : ascii) (s : string) : bool :=
  match s with
  | EmptyString => false
  | String d EmptyString => Ascii.eqb c d
  | String _ s' => endswith_char c s'
  end.

(** [needle in hay] on strings *)
Fixpoint contains (needle hay : string) : bool :=
  if String.prefix needle hay then true
  else match hay with
       | EmptyString => false
       | String _ hay' => contains needle hay'
       end.

(** A byte [10xxxxxx]: it continues the character of the byte before. *)
Definition is_continuation (c : ascii) : bool :=
  let n := nat_of_ascii c in (128 <=? n)%nat && (n <? 192)%nat.

(** [s[:n]]: the first [n] characters of the text, with all their bytes. *)
Fixpoint slice_to (n : nat) (s : string) : string :=
  match s with
  | EmptyString => EmptyString
  | String c s' =>
      if is_continuation c then String c (slice_to n s')
      else match n with
           | O => EmptyString
           | S n' => String c (slice_to n' s')
           end
  end.

(** [bool(s)] on a string: the empty string is falsy. *)
Definition truthy (s : string) : bool := negb (s =? "").

(** [str(b)] on a bool *)
Definition str_bool (b : bool) : string := if b then "True" else "False".

(** [sum(1 for x in xs if p(x))] *)
Definition count {A : Type} (p : A -> bool) (xs : list A) : nat :=
  length (filter p xs).

(** [sum(xs)] on integers: a left fold from [0]. *)
Definition sumZ (xs : list Z) : Z := fold_left Z.add xs 0%Z.

(** [sum(xs)] on floats in CPython up to 3.11: a left fold from [0]. *)
Definition sum_float_plain (xs : list float) : float :=
  fold_left PrimFloat.add xs 0%float.

(** One round of the float loop of [sum] in CPython 3.12 and later
    (Neumaier's compensated summation): the running sum and the
    compensation. *)
Definition sum_step (acc : float * float) (x : float) : float * float :=
  let '(f_result, c) := acc in
  let t := (f_result + x)%float in
  let c :=
    if PrimFloat.leb (PrimFloat.abs x) (PrimFloat.abs f_result)
    then (c + ((f_result - t) + x))%float
    else (c + ((x - t) + f_result))%float in
  (t, c).

Definition is_finite (x : float) : bool :=
  PrimFloat.eqb x x
  && negb (PrimFloat.eqb (PrimFloat.abs x) PrimFloat.infinity).

(** [sum(xs)] on floats in CPython 3.12 and later.  The first item is
    added to the integer [0]; the others go through the compensated loop;
    the compensation is added at the end when it is finite and not
    zero. *)
Definition sum_float (xs : list float) : float :=
  match xs with
  | [] => 0%float
  | x :: rest =>
      let '(f_result, c) := fold_left sum_step rest ((0 + x)%float, 0%float) in
      if negb (PrimFloat.eqb c 0) && is_finite c
      then (f_result + c)%float
      else f_result
  end.

(** [float(n)] for a count [n] (below 2^53, where the conversion is
    exact). *)
Definition float_of_nat (n : nat) : float :=
  PrimFloat.of_uint63 (Uint63.of_Z (Z.of_nat n)).

(** [a / b] on two counts, as a binary64 value. *)
Definition truediv (a b : nat) : float :=
  (float_of_nat a / float_of_nat b)%float.

(** The exact value of a finite binary64 number. *)
Definition Q_of_float (x : float) : option Q :=
  match Prim2SF x with
  | S754_zero _ => Some 0%Q
  | S754_finite s m e =>
      Some ((if s then - inject_Z (Zpos m) else inject_Z (Zpos m))
            * Qpower 2 e)%Q
  | S754_infinity _ | S754_nan => None
  end.

(** Rounding of an exact rational to the nearest integer, ties to even. *)
Definition round_half_even (q : Q) : Z :=
  let f := Qfloor q in
  match Qcompare (q - inject_Z f) (1 # 2) with
  | Lt => f
  | Gt => (f + 1)%Z
  | Eq => if Z.even f then f else (f + 1)%Z
  end.

(** [round(x, 1)]: one decimal. *)
Definition round1 (q : Q) : Q := (inject_Z (round_half_even (q * 10)) / 10)%Q.

(** [a / b] on two counts, as an exact rational. *)
Definition div_nat (a b : nat) : Q :=
  (inject_Z (Z.of_nat a) / inject_Z (Z.of_nat b))%Q.

(** [a / b * 100] on two counts, in binary64. *)
Definition percent_binary64 (a b : nat) : float :=
  (truediv a b * 100)%float.

(** [round(x, 1)] on a binary64 [x], as the decimal it is written as: the
    exact value of [x] rounded to one decimal, ties to even. *)
Definition round1_binary64 (x : float) : option Q :=
  option_map round1 (Q_of_float x).

(** [f"{x:.0%}"] for a rate [x]: the product by 100, rounded to the
    nearest integer on its exact value. *)
Definition format_percent0 (x : float) : string :=
  match Q_of_float (x * 100)%float with
  | Some q => NilZero.string_of_int (Z.to_int (round_half_even q)) ++ "%"
  | None => if PrimFloat.eqb x x
            then (if PrimFloat.ltb x 0 then "-inf%" else "inf%")
            else "nan%"
  end.

(** [os.path.join(a, b)] on POSIX *)
Definition os_path_join (a b : string) : string :=
  if startswith "/" b then b
  else if (a =? "") || endswith_char "/" a then a ++ b
  else a ++ "/" ++ b.

End Py.

(** ** verify_solution.py: class SolutionVerifier *)

Module VerifySolution.
Import Py.

(** One entry of [self.results]: the dict with the keys [name],
    [description], [passed], [required] and [message]. *)
Record CheckResult : Type := mkCheckResult {
  name : string;
  description : string;
  passed : bool;
  required : bool;
  message : string
}.

(** One entry of [verification.automated_checks] as [_run_automated_checks]
    reads it; a key that is left out reads as the empty string. *)
Record Check : Type := mkCheck {
  check_type : string;
  target : string;
  expected : string
}.

(** The part of task.yaml the verifier computes with.  [canary_token] is
    [None] when [anti_memorization.canary_token] is absent. *)
Record TaskYaml : Type := mkTaskYaml {
  canary_token : option string;
  automated_checks : list Check
}.

(** The tree below [solution_dir], as [rglob] walks it.  A regular file
    carries what [read_text(encoding='utf-8', errors='ignore')] gives for
    it: the decoded text, or the exception the read raises. *)
#[local] Unset Elimination Schemes.
Inductive node : Type :=
| RegularFile (text : Result string)
| Directory (entries : list (string * node))
| Special.   (* a socket, a fifo, a dangling link: [is_file()] is false *)
#[local] Set Elimination Schemes.

(** What one run of the verifier sees of the outside: the file system,
    the shell, the [re] engine, and the case mapping of the interpreter's
    Unicode database. *)
Record World : Type := mkWorld {
  solution_dir : string;
  solution_tree : node;
  (* what [Path(p).exists()] returns *)
  path_exists : string -> bool;
  (* [Path(p).read_text(encoding='utf-8', errors='ignore')] *)
  read_text : string -> Result string;
  (* [subprocess.run(cmd, shell=True, capture_output=True, text=True,
     timeout=t, cwd=d)]: the pair (stdout, stderr) *)
  subprocess_run : string -> nat -> string -> Result (string * string);
  (* [bool(re.search(pattern, content))] *)
  re_search : string -> string -> Result bool;
  (* [s.lower()] *)
  str_lower : string -> string
}.

Definition is_file (n : node) : bool :=
  match n with RegularFile _ => true | _ => false end.

(** [Path.rglob('*')] from a directory: its entries, then what is below
    each of its sub-directories in turn.  From anything else: nothing. *)
Fixpoint rglob (root : node) : list node :=
  match root with
  | Directory entries =>
      (map snd entries ++
       (fix below (es : list (string * node)) : list node :=
          match es with
          | [] => []
          | (_, child) :: es' => rglob child ++ below es'
          end) entries)%list
  | _ => []
  end.

(** [reaches root path n]: [n] lies below the directory [root], at the
    relative path [path] (its name last). *)
Inductive reaches : node -> list string -> node -> Prop :=
| reaches_entry (entries : list (string * node)) (name : string)
    (child : node) :
    In (name, child) entries ->
    reaches (Directory entries) [name] child
| reaches_below (entries : list (string * node)) (name : string)
    (sub : node) (path : list string) (n : node) :
    In (name, sub) entries ->
    reaches sub path n ->
    reaches (Directory entries) (name :: path) n.

(** The loop of [_check_canary_token] over the files that are left, with
    its [break] at the first file that holds the token. *)
Fixpoint scan_files (canary : string) (files : list node) : bool :=
  match files with
  | [] => false
  | file :: rest =>
      if is_file file then
        match file with
        | RegularFile (Ok content) =>
            if contains canary content then true else scan_files canary rest
        | _ => scan_files canary rest      (* except: pass *)
        end
      else scan_files canary rest
  end.

Definition _check_canary_token (w : World) (task : TaskYaml)
    (results : list CheckResult) : list CheckResult :=
  let canary := match canary_token task with Some c => c | None => "" end in
  if negb (truthy canary) then results
  else
    let found := scan_files canary (rglob (solution_tree w)) in
    (results ++
     [ {| name := "canary_token";
          description := "Canary token present in solution";
          passed := found;
          required := true;
          message := "Canary '" ++ slice_to 30 canary ++ "...' "
                     ++ (if found then "found" else "NOT FOUND") |} ])%list.

(** *** The body of [_execute_check]: a computation on the [result] dict
    that may raise; what was stored before a raise stays stored. *)

Definition M (A : Type) : Type := CheckResult -> Result A * CheckResult.

Definition ret {A : Type} (a : A) : M A := fun r => (Ok a, r).

Definition bind {A B : Type} (m : M A) (k : A -> M B) : M B :=
  fun r => match m r with
           | (Ok a, r') => k a r'
           | (Raise e, r') => (Raise e, r')
           end.

Definition call {A : Type} (x : Result A) : M A := fun r => (x, r).

Definition try_except {A : Type} (body : M A) (handler : exception -> M A)
    : M A :=
  fun r => match body r with
           | (Raise e, r') => handler e r'
           | done => done
           end.

Definition set_passed (b : bool) : M unit :=
  fun r => (Ok tt, {| name := name r; description := description r;
                      passed := b; required := required r;
                      message := message r |}).

Definition set_message (m : string) : M unit :=
  fun r => (Ok tt, {| name := name r; description := description r;
                      passed := passed r; required := required r;
                      message := m |}).

Definition get_passed : M bool := fun r => (Ok (passed r), r).

Notation "x <- m ;; k" := (bind m (fun x => k))
  (at level 61, m at next level, right associativity).
Notation "m ;; k" := (bind m (fun _ => k))
  (at level 61, right associativity).

(** [Path(target)] for a target that starts with a slash, and
    [self.solution_dir / target] for any other. *)
Definition resolve (w : World) (target : string) : string :=
  if startswith "/" target then target
  else os_path_join (solution_dir w) target.

Definition shell_tokens : list string :=
  ["cat "; "grep "; "echo "; "||"; "&&"; "2>"].

Definition looks_like_command (target : string) : bool :=
  existsb (fun cmd => contains cmd target) shell_tokens.

Definition could_not_get_content (target : string) : string :=
  "Could not get content from: " ++ slice_to 50 target.

Definition execute_body (w : World) (check_type target expected : string)
    : M unit :=
  if check_type =? "file_exists" then
    let file_path := resolve w target in
    let exists_ := path_exists w file_path in
    set_passed (lower (str_bool exists_) =? lower expected) ;;
    set_message ("File " ++ target ++ " exists: " ++ str_bool exists_)
  else if check_type =? "output_contains" then
    content <-
      (if looks_like_command target then
         try_except
           (proc <- call (subprocess_run w target 10 (solution_dir w)) ;;
            ret (Some (fst proc ++ snd proc)))
           (fun e =>
              match e with
              | TimeoutExpired _ =>
                  set_message ("Command timed out: " ++ slice_to 50 target) ;;
                  ret None
              | _ =>
                  set_message ("Command failed: " ++ exc_str e) ;;
                  ret None
              end)
       else ret None) ;;
    content <-
      (match content with
       | None =>
           let file_path := resolve w target in
           if path_exists w file_path then
             c <- call (read_text w file_path) ;; ret (Some c)
           else ret None
       | Some c => ret (Some c)
       end) ;;
    match content with
    | Some c =>
        if truthy c then
          set_passed (contains (str_lower w expected) (str_lower w c)) ;;
          p <- get_passed ;;
          set_message ("'" ++ expected ++ "' found: " ++ str_bool p)
        else set_message (could_not_get_content target)
    | None => set_message (could_not_get_content target)
    end
  else if check_type =? "content_contains" then
    let file_path := resolve w target in
    if path_exists w file_path then
      content <- call (read_text w file_path) ;;
      set_passed (contains expected content) ;;
      set_message ("Content check for '" ++ expected ++ "'")
    else set_message ("File " ++ target ++ " not found")
  else if check_type =? "regex_match" then
    let file_path := resolve w target in
    if path_exists w file_path then
      content <- call (read_text w file_path) ;;
      found <- call (re_search w expected content) ;;
      set_passed found ;;
      p <- get_passed ;;
      set_message ("Regex '" ++ slice_to 30 expected ++ "' match: "
                   ++ str_bool p)
    else set_message ("File " ++ target ++ " not found")
  else set_message ("Unknown check type: " ++ check_type).

(** The command of an [output_contains] check gave no content: there was
    none to run, or running it raised. *)
Definition no_command_output (w : World) (target : string) : Prop :=
  looks_like_command target = false \/
  (looks_like_command target = true /\
   exists e, subprocess_run w target 10 (solution_dir w) = Raise e).

Definition _execute_check (w : World) (check_type target expected : string)
    : CheckResult :=
  let result :=
    {| name := check_type ++ "_" ++ slice_to 20 target;
       description := check_type ++ " check for " ++ target;
       passed := false;
       required := false;
       message := "" |} in
  snd (try_except
         (execute_body w check_type target expected)
         (fun e => set_message ("Error: " ++ exc_str e))
         result).

Definition _run_automated_checks (w : World) (task : TaskYaml)
    (results : list CheckResult) : list CheckResult :=
  let checks := automated_checks task in
  match checks with
  | [] => results
  | _ =>
      fold_left
        (fun acc check =>
           (acc ++ [_execute_check w (check_type check) (target check)
                                   (expected check)])%list)
        checks results
  end.

(** The summary [_calculate_score] returns (the task's id, category and
    difficulty, copied from task.yaml, are left out). *)
Record Summary : Type := mkSummary {
  total : nat;
  passed_checks : nat;                 (* automated_checks.passed *)
  failed : nat;
  score_percentage : Q;
  required_total : nat;                (* required_checks.total *)
  required_passed : nat;               (* required_checks.passed *)
  all_passed : bool;                   (* required_checks.all_passed *)
  overall_status : string;
  details : list CheckResult
}.

(** [auto_score] of [_calculate_score]: the unrounded percentage. *)
Definition auto_score (results : list CheckResult) : Q :=
  let n_total := length results in
  let n_passed := count passed results in
  if (0 <? n_total)%nat then (div_nat n_passed n_total * 100)%Q else 0%Q.

(** [all_required_passed] of [_calculate_score]. *)
Definition all_required_passed (results : list CheckResult) : bool :=
  let n_required := count required results in
  let n_required_passed :=
    count (fun r => required r && passed r) results in
  if (0 <? n_required)%nat then (n_required_passed =? n_required)%nat
  else true.

(** [score_percentage] is the exact percentage rounded to one decimal;
    where that lies halfway between two decimals the code reports the
    one its binary64 product is nearer to, which may be the other
    neighbour. *)
Definition _calculate_score (results : list CheckResult) : Summary :=
  let n_total := length results in
  let n_passed := count passed results in
  let n_required := count required results in
  let n_required_passed :=
    count (fun r => required r && passed r) results in
  {| total := n_total;
     passed_checks := n_passed;
     failed := n_total - n_passed;
     score_percentage := round1 (auto_score results);
     required_total := n_required;
     required_passed := n_required_passed;
     all_passed := all_required_passed results;
     overall_status :=
       if Qle_bool 70 (auto_score results) && all_required_passed results
       then "PASS" else "FAIL";
     details := results |}.

(** [verify]: the canary check, the automated checks, the score.  (The
    success criteria are only printed.) *)
Definition verify (w : World) (task : TaskYaml) : Summary :=
  let results := [] in
  let results := _check_canary_token w task results in
  let results := _run_automated_checks w task results in
  _calculate_score results.

(** A computation on the [result] dict that leaves [required] as it is. *)
Definition keeps_required {A : Type} (m : M A) : Prop :=
  forall r, required (snd (m r)) = required r.

(** The same world with another shell, and with other files. *)
Definition with_shell (w : World)
    (run : string -> nat -> string -> Result (string * string)) : World :=
  {| solution_dir := solution_dir w;
     solution_tree := solution_tree w;
     path_exists := path_exists w;
     read_text := read_text w;
     subprocess_run := run;
     re_search := re_search w;
     str_lower := str_lower w |}.

Definition with_files (w : World) (exists_ : string -> bool)
    (read : string -> Result string) : World :=
  {| solution_dir := solution_dir w;
     solution_tree := solution_tree w;
     path_exists := exists_;
     read_text := read;
     subprocess_run := subprocess_run w;
     re_search := re_search w;
     str_lower := str_lower w |}.

(** A computation on the [result] dict that leaves [name] and
    [description] as they are. *)
Definition keeps_name {A : Type} (m : M A) : Prop :=
  forall r, name (snd (m r)) = name r /\
            description (snd (m r)) = description r.

(** [bool(canary)] for the token of the task: declared and not empty. *)
Definition canary_declared (task : TaskYaml) : bool :=
  match canary_token task with
  | Some canary => truthy canary
  | None => false
  end.

End VerifySolution.

(** ** verify_fixes.py: class SecurityVerifier *)

Module VerifyFixes.
Import Py.

Inductive Severity : Type := CRITICAL | HIGH | MEDIUM | LOW.

Inductive CheckResult : Type := PASS | FAIL | SKIP.

Record VulnerabilityCheck : Type := mkVulnerabilityCheck {
  check_id : string;
  name : string;
  severity : Severity;
  file_path : string;
  vulnerable_pattern : option string;
  fixed_pattern : option string;
  description : string;
  points : Z
}.

Record CheckOutcome : Type := mkCheckOutcome {
  check : VulnerabilityCheck;
  result : CheckResult;
  message : string
}.

(** What the verifier sees of the outside: [open(path, 'r',
    encoding='utf-8').read()], and [bool(re.search(pattern, content,
    flags))]. *)
Record World : Type := mkWorld {
  open_read : string -> Result string;
  re_search : string -> string -> Z -> Result bool
}.

Record SecurityVerifier : Type := mkSecurityVerifier {
  base_path : string;
  checks : list VulnerabilityCheck;
  outcomes : list CheckOutcome
}.

Definition re_MULTILINE : Z := 8.
Definition re_DOTALL : Z := 16.

(** The double quote, which the patterns below contain. *)
Definition dq : string := String (ascii_of_nat 34) EmptyString.

Definition _define_checks : list VulnerabilityCheck :=
  [ {| check_id := "SQL-001";
       name := "SQL Injection in Search";
       severity := CRITICAL;
       file_path := "app/routes/users.py";
       vulnerable_pattern :=
         Some ("LIKE\s*['\" ++ dq ++ "]%.*\+.*query_param.*\+.*%['\"
               ++ dq ++ "]");
       fixed_pattern := Some "execute_query\([^,]+,\s*\([^)]*query_param";
       description :=
         "Search function uses string concatenation in SQL query";
       points := 15 |};
    {| check_id := "SQL-002";
       name := "SQL Injection in Bulk Lookup";
       severity := HIGH;
       file_path := "app/routes/users.py";
       vulnerable_pattern := Some ("f[" ++ dq ++ "\']SELECT.*IN\s*\(\{");
       fixed_pattern := Some "execute_query\([^,]+,\s*\(?.*user_ids";
       description := "Bulk lookup uses f-string interpolation in SQL";
       points := 10 |};
    {| check_id := "CRYPTO-001";
       name := "Weak Password Hashing (MD5)";
       severity := CRITICAL;
       file_path := "app/utils/crypto.py";
       vulnerable_pattern := Some "hashlib\.md5";
       fixed_pattern := Some "bcrypt\.(hashpw|checkpw|gensalt)";
       description := "MD5 is used for password hashing instead of bcrypt";
       points := 20 |};
    {| check_id := "CONFIG-001";
       name := "Hardcoded Secret Key";
       severity := HIGH;
       file_path := "config.py";
       vulnerable_pattern :=
         Some ("SECRET_KEY\s*=\s*['\" ++ dq ++ "][a-zA-Z0-9_]{20,}['\"
               ++ dq ++ "]");
       fixed_pattern := Some "SECRET_KEY\s*=\s*os\.environ\.get\(";
       description := "Secret key is hardcoded in source code";
       points := 15 |};
    {| check_id := "AUTH-001";
       name := "Missing Authentication on Admin Endpoint";
       severity := CRITICAL;
       file_path := "app/routes/auth.py";
       vulnerable_pattern :=
         Some ("@auth_bp\.route\(['\" ++ dq ++ "]\/admin\/users['\" ++ dq
               ++ "]\s*,.*\)\s*\ndef admin_list_users");
       fixed_pattern :=
         Some "@(admin_required|token_required).*\ndef admin_list_users";
       description := "Admin endpoint lacks authentication decorator";
       points := 15 |};
    {| check_id := "PATH-001";
       name := "Path Traversal in File Access";
       severity := HIGH;
       file_path := "app/routes/users.py";
       vulnerable_pattern :=
         Some "os\.path\.join\(.*filename\)(?!.*startswith|realpath)";
       fixed_pattern :=
         Some "(startswith\(|realpath.*==|os\.path\.commonpath)";
       description :=
         "File path not validated against directory traversal";
       points := 10 |};
    {| check_id := "DESER-001";
       name := "Insecure Deserialization (Pickle)";
       severity := CRITICAL;
       file_path := "app/routes/auth.py";
       vulnerable_pattern := Some "pickle\.(loads|dumps)";
       fixed_pattern := Some "json\.(loads|dumps)";
       description := "Pickle used for session data serialization";
       points := 15 |} ].

(** [__init__] *)
Definition new (base_path : string) : SecurityVerifier :=
  {| base_path := base_path; checks := _define_checks; outcomes := [] |}.

Definition bindR {A B : Type} (x : Result A) (k : A -> Result B)
    : Result B :=
  match x with
  | Ok a => k a
  | Raise e => Raise e
  end.

#[local] Notation "x <- m ;; k" := (bindR m (fun x => k))
  (at level 61, m at next level, right associativity).

(** [FileNotFoundError] and any other [IOError] give [None]; what is not
    an [IOError] (a [UnicodeDecodeError], say) is not caught. *)
Definition _read_file (w : World) (self : SecurityVerifier)
    (relative_path : string) : Result (option string) :=
  let full_path := os_path_join (base_path self) relative_path in
  match open_read w full_path with
  | Ok text => Ok (Some text)
  | Raise (FileNotFoundError _) => Ok None
  | Raise e => if is_IOError e then Ok None else Raise e
  end.

(** [re.search] raises a [TypeError] when its pattern is [None]. *)
Definition _check_pattern (w : World) (content : string)
    (pattern : option string) : Result bool :=
  match pattern with
  | None => Raise (TypeError
                     "first argument must be string or compiled pattern")
  | Some p => re_search w p content (Z.lor re_MULTILINE re_DOTALL)
  end.

(** [bool(x)] for an optional string. *)
Definition truthy_opt (x : option string) : bool :=
  match x with
  | None => false
  | Some s => truthy s
  end.

(** The two tests of [run_check]; a [fixed_pattern] that is [None] or
    empty is not searched for. *)
Definition has_vulnerability (w : World) (content : string)
    (check : VulnerabilityCheck) : Result bool :=
  _check_pattern w content (vulnerable_pattern check).

Definition has_fix (w : World) (content : string)
    (check : VulnerabilityCheck) : Result bool :=
  if truthy_opt (fixed_pattern check)
  then _check_pattern w content (fixed_pattern check)
  else Ok false.

Definition run_check (w : World) (self : SecurityVerifier)
    (check : VulnerabilityCheck) : Result CheckOutcome :=
  content <- _read_file w self (file_path check) ;;
  match content with
  | None =>
      Ok {| check := check; result := SKIP;
            message := "File not found: " ++ file_path check |}
  | Some content =>
      has_vulnerability <- has_vulnerability w content check ;;
      has_fix <- has_fix w content check ;;
      if has_vulnerability && negb has_fix then
        Ok {| check := check; result := FAIL;
              message := "Vulnerability still present: "
                         ++ description check |}
      else if has_fix && negb has_vulnerability then
        Ok {| check := check; result := PASS;
              message := "Fixed: " ++ name check |}
      else if negb has_vulnerability then
        Ok {| check := check; result := PASS;
              message := "Vulnerability pattern not found "
                         ++ "(may be fixed or code changed)" |}
      else
        Ok {| check := check; result := FAIL;
              message := "Mixed signals: vulnerable pattern found "
                         ++ "but fix pattern also present" |}
  end.

(** [[self.run_check(check) for check in self.checks]] *)
Fixpoint run_each (w : World) (self : SecurityVerifier)
    (cs : list VulnerabilityCheck) : Result (list CheckOutcome) :=
  match cs with
  | [] => Ok []
  | c :: cs' =>
      o <- run_check w self c ;;
      os <- run_each w self cs' ;;
      Ok (o :: os)
  end.

Definition run_all_checks (w : World) (self : SecurityVerifier)
    : Result SecurityVerifier :=
  os <- run_each w self (checks self) ;;
  Ok {| base_path := base_path self; checks := checks self;
        outcomes := os |}.

Definition is_result (r : CheckResult) (o : CheckOutcome) : bool :=
  match r, result o with
  | PASS, PASS | FAIL, FAIL | SKIP, SKIP => true
  | _, _ => false
  end.

Record Score : Type := mkScore {
  total_checks : nat;
  passed : nat;
  failed : nat;
  skipped : nat;
  points_earned : Z;
  points_total : Z;
  percentage : Q
}.

(** [percentage] is the exact quotient rounded to one decimal; where
    that lies halfway between two decimals the code reports the one its
    binary64 product is nearer to, which may be the other neighbour. *)
Definition calculate_score (self : SecurityVerifier) : Score :=
  let total_points := sumZ (map points (checks self)) in
  let earned_points :=
    sumZ (map (fun outcome => points (check outcome))
              (filter (is_result PASS) (outcomes self))) in
  {| total_checks := length (checks self);
     passed := count (is_result PASS) (outcomes self);
     failed := count (is_result FAIL) (outcomes self);
     skipped := count (is_result SKIP) (outcomes self);
     points_earned := earned_points;
     points_total := total_points;
     percentage :=
       if (0 <? total_points)%Z
       then round1 ((inject_Z earned_points / inject_Z total_points) * 100)
       else 0%Q |}.

Definition severity_eqb (a b : Severity) : bool :=
  match a, b with
  | CRITICAL, CRITICAL | HIGH, HIGH | MEDIUM, MEDIUM | LOW, LOW => true
  | _, _ => false
  end.

(** [severity_order] of [generate_report] *)
Definition severity_order : list Severity := [CRITICAL; HIGH; MEDIUM; LOW].

(** The two numbers of the line "Points: e/p" of an outcome. *)
Definition points_shown (outcome : CheckOutcome) : Z * Z :=
  ((if is_result PASS outcome then points (check outcome) else 0)%Z,
   points (check outcome)).

(** The last line but one of the report. *)
Definition result_line (percentage : Q) : string :=
  if Qle_bool 90 percentage then
    "RESULT: EXCELLENT - All critical vulnerabilities addressed!"
  else if Qle_bool 70 percentage then
    "RESULT: GOOD - Most vulnerabilities addressed, some remain."
  else if Qle_bool 50 percentage then
    "RESULT: NEEDS IMPROVEMENT - Several vulnerabilities remain."
  else "RESULT: CRITICAL - Many vulnerabilities still present!".

(** What [generate_report] lays out as text: for each severity that has
    outcomes, in [severity_order], its outcomes; then the score; then the
    result line. *)
Record Report : Type := mkReport {
  severity_groups : list (Severity * list CheckOutcome);
  summary : Score;
  result_text : string
}.

Definition generate_report (self : SecurityVerifier) : Report :=
  let groups :=
    flat_map
      (fun s =>
         let severity_outcomes :=
           filter (fun o => severity_eqb (severity (check o)) s)
                  (outcomes self) in
         match severity_outcomes with
         | [] => []
         | _ => [(s, severity_outcomes)]
         end)
      severity_order in
  let score := calculate_score self in
  {| severity_groups := groups;
     summary := score;
     result_text := result_line (percentage score) |}.

(** [main]: the status [sys.exit] is called with; an exception that
    [run_all_checks] raises is not caught. *)
Definition main (w : World) (base_path : string) : Result Z :=
  let verifier := new base_path in
  verifier <- run_all_checks w verifier ;;
  let report := generate_report verifier in
  let score := calculate_score verifier in
  if negb (Qle_bool 100 (percentage score)) then Ok 1%Z else Ok 0%Z.

End VerifyFixes.

(** ** A Python [dict] with string keys: its items in insertion order *)

Module PyDict.

Definition dict (V : Type) : Type := list (string * V).

(** [d.get(k)] *)
Fixpoint get {V : Type} (k : string) (d : dict V) : option V :=
  match d with
  | [] => None
  | (k', v) :: d' => if k =? k' then Some v else get k d'
  end.

(** [k in d] *)
Definition mem {V : Type} (k : string) (d : dict V) : bool :=
  match get k d with
  | Some _ => true
  | None => false
  end.

(** [d[k] = v]: a key that is there keeps its place, a new one goes last. *)
Fixpoint set {V : Type} (k : string) (v : V) (d : dict V) : dict V :=
  match d with
  | [] => [(k, v)]
  | (k', v') :: d' =>
      if k =? k' then (k, v) :: d' else (k', v') :: set k v d'
  end.

Definition keys {V : Type} (d : dict V) : list string := map fst d.

End PyDict.

(** ** benchmark_evaluation.py: analyze_results *)

Module BenchmarkEvaluation.
Import Py PyDict.

(** One dict of [task_results], with the keys [analyze_results] reads; a
    key that is absent is [None]. *)
Record TaskResult : Type := mkTaskResult {
  task_id : option string;
  difficulty : option string;
  r_success : option bool;             (* key [success] *)
  duration_seconds : option float
}.

(** [evaluation_result] *)
Record EvaluationResult : Type := mkEvaluationResult {
  task_results_key : option (list TaskResult)   (* key [task_results] *)
}.

(** One value of [by_difficulty].  The keys [success_rate] and
    [avg_duration] are added by the second loop; before it they are
    absent. *)
Record Stats : Type := mkStats {
  total : nat;
  success : nat;
  durations : list float;
  success_rate : option float;
  avg_duration : option float
}.

Record EvaluationReport : Type := mkEvaluationReport {
  total_tasks : nat;
  successful_tasks : nat;
  failed_tasks : nat;
  overall_success_rate : float;        (* field [success_rate] *)
  average_duration : float;
  by_difficulty : dict Stats;
  task_results : list TaskResult;
  recommendations : list string
}.

(** [result.get("difficulty", "unknown")] and the like *)
Definition get_difficulty (r : TaskResult) : string :=
  match difficulty r with Some d => d | None => "unknown" end.

Definition get_success (r : TaskResult) : bool :=
  match r_success r with Some b => b | None => false end.

Definition get_duration (r : TaskResult) : float :=
  match duration_seconds r with Some x => x | None => 0%float end.

(** [sum(xs) / len(xs) if xs else 0] *)
Definition mean (xs : list float) : float :=
  match xs with
  | [] => 0%float
  | _ => (sum_float xs / float_of_nat (length xs))%float
  end.

(** [{"total": 0, "success": 0, "durations": []}] *)
Definition fresh_stats : Stats :=
  {| total := 0; success := 0; durations := [];
     success_rate := None; avg_duration := None |}.

(** The three updates of a bucket for one result. *)
Definition bump (stats : Stats) (result : TaskResult) : Stats :=
  {| total := total stats + 1;
     success := if get_success result then success stats + 1
                else success stats;
     durations := (durations stats ++ [get_duration result])%list;
     success_rate := success_rate stats;
     avg_duration := avg_duration stats |}.

(** The body of the first loop. *)
Definition tally (by_difficulty : dict Stats) (result : TaskResult)
    : dict Stats :=
  let diff := get_difficulty result in
  let by_difficulty :=
    if negb (mem diff by_difficulty)
    then set diff fresh_stats by_difficulty
    else by_difficulty in
  match get diff by_difficulty with
  | None => by_difficulty
  | Some stats => set diff (bump stats result) by_difficulty
  end.

(** The body of the second loop. *)
Definition with_rates (stats : Stats) : Stats :=
  {| total := total stats;
     success := success stats;
     durations := durations stats;
     success_rate :=
       Some (if (0 <? total stats)%nat
             then truediv (success stats) (total stats) else 0%float);
     avg_duration := Some (mean (durations stats)) |}.

Definition rate_of (stats : Stats) : float :=
  match success_rate stats with Some x => x | None => 0%float end.

(** The body of the loop over [by_difficulty.items()] that checks the
    difficulty distribution. *)
#[warnings="-inexact-float"]
Definition bucket_recommendation (diff : string) (stats : Stats)
    : list string :=
  let rate := rate_of stats in
  if (lower diff =? "easy") && PrimFloat.ltb rate 0.7%float then
    ["Easy tasks are too hard (success rate: "
     ++ format_percent0 rate ++ ")"]
  else if (lower diff =? "hard") && PrimFloat.ltb 0.5%float rate then
    ["Hard tasks are too easy (success rate: "
     ++ format_percent0 rate ++ ")"]
  else [].

#[warnings="-inexact-float"]
Definition analyze_results (evaluation_result : EvaluationResult)
    : EvaluationReport :=
  let task_results :=
    match task_results_key evaluation_result with
    | Some l => l
    | None => []
    end in
  let successful := count get_success task_results in
  let failed := (length task_results - successful)%nat in
  let by_difficulty := fold_left tally task_results [] in
  let by_difficulty :=
    map (fun item => (fst item, with_rates (snd item))) by_difficulty in
  let overall_success_rate :=
    match task_results with
    | [] => 0%float
    | _ => truediv successful (length task_results)
    end in
  let recommendations :=
    if PrimFloat.ltb 0.8%float overall_success_rate then
      ["Tasks are too easy - increase difficulty factors";
       "Consider adding more traps and edge cases"]
    else if PrimFloat.ltb overall_success_rate 0.2%float then
      ["Tasks may be too hard or unclear - review problem statements";
       "Consider simplifying instructions or adding more context"]
    else ["Difficulty calibration looks reasonable"] in
  let recommendations :=
    (recommendations ++
     flat_map (fun item => bucket_recommendation (fst item) (snd item))
              by_difficulty)%list in
  let durations := map get_duration task_results in
  let avg_duration := mean durations in
  {| total_tasks := length task_results;
     successful_tasks := successful;
     failed_tasks := failed;
     overall_success_rate := overall_success_rate;
     average_duration := avg_duration;
     by_difficulty := by_difficulty;
     task_results := task_results;
     recommendations := recommendations |}.

(** The counts and the rate of a bucket. *)
Definition counts_view (stats : Stats) : nat * nat * option float :=
  (total stats, success stats, success_rate stats).

(** The results of one difficulty, in the order of the input. *)
Definition bucket_of (diff : string) (task_results : list TaskResult)
    : list TaskResult :=
  filter (fun r => get_difficulty r =? diff) task_results.

(** The bucket the first loop works on: the one stored, or a fresh one. *)
Definition stats_or_fresh (o : option Stats) : Stats :=
  match o with
  | Some stats => stats
  | None => fresh_stats
  end.

(** What the report holds for the results [rs] of one difficulty. *)
Definition bucket_stats (rs : list TaskResult) : option Stats :=
  match rs with
  | [] => None
  | _ => Some {| total := length rs;
                 success := count get_success rs;
                 durations := map get_duration rs;
                 success_rate :=
                   Some (if (0 <? length rs)%nat
                         then truediv (count get_success rs) (length rs)
                         else 0%float);
                 avg_duration := Some (mean (map get_duration rs)) |}
  end.

End BenchmarkEvaluation.


(** ** The spec's own words, to compare the code with *)

Module SpecWords.
Import Py VerifyFixes.

(** The four rows of the decision table of the PatternVerifier. *)
Definition decision_table (vulnerable_found fix_found : bool)
    : CheckResult :=
  match vulnerable_found, fix_found with
  | true, false => FAIL
  | false, true => PASS
  | false, false => PASS
  | true, true => FAIL
  end.

Definition points_with (r : CheckResult) (outcomes : list CheckOutcome)
    : Z :=
  sumZ (map (fun o => points (check o)) (filter (is_result r) outcomes)).


End SpecWords.

(** ** Sample inputs *)

Module Examples.
Import Py.




(** The texts of the samples are ASCII, where [str.lower()] is [lower].

    A solution directory that holds nothing the checks ask for; every
    command prints nothing. *)
Definition empty_world : VerifySolution.World :=
  {| VerifySolution.solution_dir := "/output";
     VerifySolution.solution_tree := VerifySolution.Directory [];
     VerifySolution.path_exists := fun _ => false;
     VerifySolution.read_text :=
       fun p => Raise (FileNotFoundError p);
     VerifySolution.subprocess_run := fun _ _ _ => Ok ("", "");
     VerifySolution.re_search := fun _ _ => Ok false;
     VerifySolution.str_lower := lower |}.

(** A solution directory with one file, whose name is the text of a
    command; the command itself runs out of time. *)
Definition slow_command : string := "sleep 60 && echo done".

Definition slow_world : VerifySolution.World :=
  {| VerifySolution.solution_dir := "/output";
     VerifySolution.solution_tree :=
       VerifySolution.Directory
         [(slow_command, VerifySolution.RegularFile (Ok "done"))];
     VerifySolution.path_exists :=
       fun p => p =? "/output/sleep 60 && echo done";
     VerifySolution.read_text :=
       fun p => if p =? "/output/sleep 60 && echo done" then Ok "done"
                else Raise (FileNotFoundError p);
     VerifySolution.subprocess_run :=
       fun cmd _ _ => Raise (TimeoutExpired cmd);
     VerifySolution.re_search := fun _ _ => Ok false;
     VerifySolution.str_lower := lower |}.

(** A solution that passes both automated checks of [canary_task] and
    holds no canary token. *)
Definition canary_task : VerifySolution.TaskYaml :=
  {| VerifySolution.canary_token := Some "DATAFORGE_CANARY_7f3a91";
     VerifySolution.automated_checks :=
       [ VerifySolution.mkCheck "file_exists" "analysis.txt" "true";
         VerifySolution.mkCheck "output_contains" "cat analysis.txt"
           "502" ] |}.

Definition no_canary_world : VerifySolution.World :=
  {| VerifySolution.solution_dir := "/output";
     VerifySolution.solution_tree :=
       VerifySolution.Directory
         [("analysis.txt",
           VerifySolution.RegularFile (Ok "status_code: 502"));
          ("logs",
           VerifySolution.Directory
             [("run.log", VerifySolution.RegularFile (Ok "started"))])];
     VerifySolution.path_exists := fun p => p =? "/output/analysis.txt";
     VerifySolution.read_text :=
       fun p => if p =? "/output/analysis.txt" then Ok "status_code: 502"
                else Raise (FileNotFoundError p);
     VerifySolution.subprocess_run :=
       fun cmd _ _ => if cmd =? "cat analysis.txt"
                      then Ok ("status_code: 502", "")
                      else Ok ("", "command not found");
     VerifySolution.re_search := fun _ _ => Ok false;
     VerifySolution.str_lower := lower |}.

(** The audited repository with [config.py] deleted and no vulnerable
    pattern left in the other files. *)
Definition config_missing_world : VerifyFixes.World :=
  {| VerifyFixes.open_read :=
       fun p => if p =? "/repo/config.py"
                then Raise (FileNotFoundError p) else Ok "pass";
     VerifyFixes.re_search := fun _ _ _ => Ok false |}.

Definition config_check : VerifyFixes.VulnerabilityCheck :=
  {| VerifyFixes.check_id := "CONFIG-001";
     VerifyFixes.name := "Hardcoded Secret Key";
     VerifyFixes.severity := VerifyFixes.HIGH;
     VerifyFixes.file_path := "config.py";
     VerifyFixes.vulnerable_pattern := Some "SECRET_KEY";
     VerifyFixes.fixed_pattern := None;
     VerifyFixes.description := "Secret key is hardcoded in source code";
     VerifyFixes.points := 15 |}.

(** A check that names no vulnerable pattern. *)
Definition patternless_check : VerifyFixes.VulnerabilityCheck :=
  {| VerifyFixes.check_id := "DOC-001";
     VerifyFixes.name := "Security notes present";
     VerifyFixes.severity := VerifyFixes.LOW;
     VerifyFixes.file_path := "SECURITY.md";
     VerifyFixes.vulnerable_pattern := None;
     VerifyFixes.fixed_pattern := Some "Reporting";
     VerifyFixes.description := "Security notes are missing";
     VerifyFixes.points := 5 |}.

(** An engine that finds a pattern when it occurs literally. *)
Definition literal_world (content : string) : VerifyFixes.World :=
  {| VerifyFixes.open_read := fun _ => Ok content;
     VerifyFixes.re_search := fun p c _ => Ok (contains p c) |}.

Definition md5_check : VerifyFixes.VulnerabilityCheck :=
  {| VerifyFixes.check_id := "CRYPTO-001";
     VerifyFixes.name := "Weak Password Hashing (MD5)";
     VerifyFixes.severity := VerifyFixes.CRITICAL;
     VerifyFixes.file_path := "app/utils/crypto.py";
     VerifyFixes.vulnerable_pattern := Some "hashlib.md5";
     VerifyFixes.fixed_pattern := Some "bcrypt.hashpw";
     VerifyFixes.description :=
       "MD5 is used for password hashing instead of bcrypt";
     VerifyFixes.points := 20 |}.

(** A world in which every file is empty and nothing is ever found. *)
Definition quiet_world : VerifyFixes.World :=
  {| VerifyFixes.open_read := fun _ => Ok "";
     VerifyFixes.re_search := fun _ _ _ => Ok false |}.

(** Four records of a calibration run; the last one names no difficulty,
    no outcome and no duration. *)
Definition calibration_run : list BenchmarkEvaluation.TaskResult :=
  [ BenchmarkEvaluation.mkTaskResult
      (Some "t1") (Some "easy") (Some true) (Some 12.5%float);
    BenchmarkEvaluation.mkTaskResult
      (Some "t2") (Some "easy") (Some false) (Some 45%float);
    BenchmarkEvaluation.mkTaskResult
      (Some "t3") (Some "hard") (Some true) (Some 300%float);
    BenchmarkEvaluation.mkTaskResult None None None None ].

(** Ten easy tasks of which nine succeeded. *)
Definition nine_of_ten_easy : list BenchmarkEvaluation.TaskResult :=
  (repeat (BenchmarkEvaluation.mkTaskResult
             None (Some "easy") (Some true) (Some 30%float)) 9
   ++ [BenchmarkEvaluation.mkTaskResult
         None (Some "easy") (Some false) (Some 180%float)])%list.

(** One required outcome that passed, one optional outcome that did not. *)
Definition half_passed : list VerifySolution.CheckResult :=
  [ VerifySolution.mkCheckResult "canary_token"
      "Canary token present in solution" true true "Canary found";
    VerifySolution.mkCheckResult "file_exists_out.txt"
      "file_exists check for out.txt" false false
      "File out.txt exists: False" ].

(** Four easy tasks that took 2, 3, 1e16 and 1e-16 seconds. *)
#[warnings="-inexact-float"]
Definition uneven_run : list BenchmarkEvaluation.TaskResult :=
  [ BenchmarkEvaluation.mkTaskResult
      (Some "u1") (Some "easy") (Some true) (Some 2%float);
    BenchmarkEvaluation.mkTaskResult
      (Some "u2") (Some "easy") (Some true) (Some 3%float);
    BenchmarkEvaluation.mkTaskResult
      (Some "u3") (Some "easy") (Some true) (Some 1e16%float);
    BenchmarkEvaluation.mkTaskResult
      (Some "u4") (Some "easy") (Some true) (Some 1e-16%float) ].

(** A solution that passes both automated checks of [canary_task] and
    carries its canary token. *)
Definition complete_world : VerifySolution.World :=
  {| VerifySolution.solution_dir := "/output";
     VerifySolution.solution_tree :=
       VerifySolution.Directory
         [("analysis.txt",
           VerifySolution.RegularFile
             (Ok "status_code: 502 ref DATAFORGE_CANARY_7f3a91"))];
     VerifySolution.path_exists := fun p => p =? "/output/analysis.txt";
     VerifySolution.read_text :=
       fun p => if p =? "/output/analysis.txt"
                then Ok "status_code: 502 ref DATAFORGE_CANARY_7f3a91"
                else Raise (FileNotFoundError p);
     VerifySolution.subprocess_run :=
       fun cmd _ _ => if cmd =? "cat analysis.txt"
                      then Ok ("status_code: 502 ref DATAFORGE_CANARY_7f3a91",
                               "")
                      else Ok ("", "command not found");
     VerifySolution.re_search := fun _ _ => Ok false;
     VerifySolution.str_lower := lower |}.

(** A shell in which every command runs out of time. *)
Definition stuck_shell (cmd : string) (timeout : nat) (cwd : string)
    : Result (string * string) :=
  Raise (TimeoutExpired cmd).

(** A checkout in which no file of the audit is found. *)
Definition bare_world : VerifyFixes.World :=
  {| VerifyFixes.open_read := fun p => Raise (FileNotFoundError p);
     VerifyFixes.re_search := fun _ _ _ => Ok false |}.

(** A checkout in which only the f-string query of the bulk lookup is
    left: the engine finds the vulnerable pattern of SQL-002 and nothing
    else. *)
Definition bulk_lookup_left_world : VerifyFixes.World :=
  {| VerifyFixes.open_read := fun _ => Ok "f'SELECT * FROM users ...'";
     VerifyFixes.re_search :=
       fun p _ _ => Ok (String.prefix "f[" p) |}.

(** The verifier of the built-in profile after its run in a world (as
    created, should the run raise). *)
Definition audit (w : VerifyFixes.World) : VerifyFixes.SecurityVerifier :=
  match VerifyFixes.run_all_checks w (VerifyFixes.new "/repo") with
  | Ok after => after
  | Raise _ => VerifyFixes.new "/repo"
  end.

End Examples.
(** * Facts about the builtins *)

Section PyFacts.
Import Py.

Lemma prefix_app (p s : string) :
  String.prefix p s = true <-> exists post, s = p ++ post.
Proof.
  revert s; induction p as [|c p IH]; intros s; simpl.
  - destruct s; split; intros; eauto.
  - destruct s as [|d s]; simpl.
    + split; [discriminate | intros [post H]; discriminate].
    + destruct (ascii_dec c d) as [->|ne].
      * rewrite IH; split; intros [post H]; exists post.
        -- now rewrite H.
        -- now inversion H.
      * split; [discriminate | intros [post H]; congruence].
Qed.

Lemma contains_unfold (needle hay : string) :
  contains needle hay =
  if String.prefix needle hay then true
  else match hay with
       | EmptyString => false
       | String _ hay' => contains needle hay'
       end.
Proof. destruct hay; reflexivity. Qed.

(** [needle in hay] holds exactly when [hay] is [pre ++ needle ++ post]. *)
Lemma contains_app (needle hay : string) :
  contains needle hay = true <->
  exists pre post, hay = pre ++ needle ++ post.
Proof.
  induction hay as [|c hay IH]; rewrite contains_unfold.
  - destruct (String.prefix needle "") eqn:P.
    + apply prefix_app in P. destruct P as [post P].
      split; auto. intros _. exists "", post. exact P.
    + split; [discriminate|]. intros [pre [post H]].
      destruct pre; simpl in H.
      * assert (String.prefix needle "" = true)
          by (apply prefix_app; eauto).
        congruence.
      * discriminate.
  - destruct (String.prefix needle (String c hay)) eqn:P.
    + apply prefix_app in P. destruct P as [post P].
      split; auto. intros _. exists "", post. exact P.
    + rewrite IH. split.
      * intros [pre [post H]]. exists (String c pre), post.
        simpl. now rewrite H.
      * intros [pre [post H]]. destruct pre as [|d pre]; simpl in H.
        -- assert (String.prefix needle (String c hay) = true)
             by (apply prefix_app; eauto).
           congruence.
        -- inversion H. eauto.
Qed.

Lemma count_app {A : Type} (p : A -> bool) (xs ys : list A) :
  count p (xs ++ ys)%list = (count p xs + count p ys)%nat.
Proof.
  unfold count. now rewrite filter_app, length_app.
Qed.

Lemma count_and_le {A : Type} (p q : A -> bool) (xs : list A) :
  (count (fun x => p x && q x) xs <= count p xs)%nat.
Proof.
  unfold count. induction xs as [|x xs IH]; simpl; [lia|].
  destruct (p x), (q x); simpl; lia.
Qed.

(** As many elements satisfy [p] and [q] as satisfy [p] exactly when [q]
    holds of every element that satisfies [p]. *)
Lemma count_and_eq {A : Type} (p q : A -> bool) (xs : list A) :
  count (fun x => p x && q x) xs = count p xs <->
  (forall x, In x xs -> p x = true -> q x = true).
Proof.
  induction xs as [|x xs IH].
  - split; [intros _ y []|reflexivity].
  - pose proof (count_and_le p q xs) as LE.
    unfold count in *. simpl.
    destruct (p x) eqn:Px, (q x) eqn:Qx; simpl.
    + split.
      * intros H y [<-|Hy] Py; [assumption|].
        apply IH; [lia|assumption|assumption].
      * intros H. f_equal. apply IH. intros y Hy. apply H. now right.
    + split; [lia|]. intros H.
      specialize (H x (or_introl eq_refl) Px). congruence.
    + rewrite IH. split.
      * intros H y [<-|Hy] Py; [congruence|now apply H].
      * intros H y Hy. apply H. now right.
    + rewrite IH. split.
      * intros H y [<-|Hy] Py; [congruence|now apply H].
      * intros H y Hy. apply H. now right.
Qed.

(** [100 * a / b >= 70] in integers. *)
Lemma percent_ge_70 (a b : nat) :
  (0 < b)%nat ->
  ((70 <= div_nat a b * 100)%Q <-> (7 * b <= 10 * a)%nat).
Proof.
  intros Hb. unfold div_nat, Qdiv, Qinv, Qmult, Qle. simpl.
  destruct (Z.of_nat b) as [|pb|pb] eqn:Eb; try lia.
  simpl. split; intros H; nia.
Qed.

(** A slice counts characters: the two bytes of U+00E9 are one. *)
Lemma slice_to_counts_characters :
  slice_to 2
    (String (ascii_of_nat 195) (String (ascii_of_nat 169) "tude"))
  = String (ascii_of_nat 195) (String (ascii_of_nat 169) "t") /\
  slice_to 3 "output.txt" = "out" /\
  slice_to 20 "a.txt" = "a.txt".
Proof. repeat split. Qed.

End PyFacts.

(** ** Rounding to one decimal *)

Section Rounding.
Import Py.

Lemma floor_bounds (q : Q) :
  (inject_Z (Qfloor q) <= q /\ q < inject_Z (Qfloor q) + 1)%Q.
Proof.
  split; [apply Qfloor_le|].
  pose proof (Qlt_floor q) as H. rewrite inject_Z_plus in H. exact H.
Qed.

Lemma inject_Z_le (a b : Z) : (inject_Z a <= inject_Z b)%Q <-> (a <= b)%Z.
Proof. rewrite <- Zle_Qle. reflexivity. Qed.

Lemma inject_Z_lt (a b : Z) : (inject_Z a < inject_Z b)%Q <-> (a < b)%Z.
Proof. rewrite <- Zlt_Qlt. reflexivity. Qed.

Lemma inject_Z_succ (n : Z) : (inject_Z (n + 1) == inject_Z n + 1)%Q.
Proof. rewrite inject_Z_plus. reflexivity. Qed.

Lemma inject_Z_pred (n : Z) : (inject_Z (n - 1) == inject_Z n - 1)%Q.
Proof. unfold Z.sub. rewrite inject_Z_plus. reflexivity. Qed.

(** The rounded value is within one half of the number. *)
Lemma round_half_even_near (q : Q) :
  (inject_Z (round_half_even q) - (1 # 2) <= q /\
   q <= inject_Z (round_half_even q) + (1 # 2))%Q.
Proof.
  unfold round_half_even. destruct (floor_bounds q) as [L U].
  destruct (Qcompare_spec (q - inject_Z (Qfloor q)) (1 # 2)) as [E|E|E].
  - destruct (Z.even (Qfloor q)); [lra|].
    pose proof (inject_Z_succ (Qfloor q)). lra.
  - lra.
  - pose proof (inject_Z_succ (Qfloor q)). lra.
Qed.

(** A number that is at most the integer [n] rounds to at most [n], and
    one that is at least [n] rounds to at least [n]. *)
Lemma round_half_even_le (q : Q) (n : Z) :
  (q <= inject_Z n)%Q -> (round_half_even q <= n)%Z.
Proof.
  intros H. destruct (round_half_even_near q) as [L _].
  destruct (Z_le_gt_dec (round_half_even q) n) as [G|G]; [exact G|].
  assert (K : (n + 1 <= round_half_even q)%Z) by lia.
  apply inject_Z_le in K. pose proof (inject_Z_succ n). lra.
Qed.

Lemma round_half_even_ge (q : Q) (n : Z) :
  (inject_Z n <= q)%Q -> (n <= round_half_even q)%Z.
Proof.
  intros H. destruct (round_half_even_near q) as [_ U].
  destruct (Z_le_gt_dec n (round_half_even q)) as [G|G]; [exact G|].
  assert (K : (round_half_even q + 1 <= n)%Z) by lia.
  apply inject_Z_le in K. pose proof (inject_Z_succ (round_half_even q)).
  lra.
Qed.

(** For an even integer [n], the numbers that round to [n] or more are
    those from [n - 1/2] on: the tie goes to [n]. *)
Lemma round_half_even_ge_even (q : Q) (n : Z) :
  Z.even n = true ->
  ((n <= round_half_even q)%Z <-> (inject_Z n - (1 # 2) <= q)%Q).
Proof.
  intros Ev. split.
  - intros H. destruct (round_half_even_near q) as [L _].
    apply inject_Z_le in H. lra.
  - intros H. unfold round_half_even. destruct (floor_bounds q) as [L U].
    assert (F : (n - 1 <= Qfloor q)%Z).
    { destruct (Z_le_gt_dec (n - 1) (Qfloor q)) as [G|G]; [exact G|].
      exfalso. assert (K : (Qfloor q + 1 <= n - 1)%Z) by lia.
      apply inject_Z_le in K.
      pose proof (inject_Z_succ (Qfloor q)). pose proof (inject_Z_pred n).
      lra. }
    destruct (Qcompare_spec (q - inject_Z (Qfloor q)) (1 # 2)) as [E|E|E].
    + destruct (Z.even (Qfloor q)) eqn:Ef; [|lia].
      destruct (Z.eq_dec (Qfloor q) (n - 1)) as [B|B]; [|lia].
      rewrite B in Ef. rewrite Z.even_sub in Ef. rewrite Ev in Ef.
      discriminate.
    + destruct (Z.eq_dec (Qfloor q) (n - 1)) as [B|B]; [|lia].
      exfalso. rewrite B in E. pose proof (inject_Z_pred n). lra.
    + lia.
Qed.

Lemma round1_bounds (q : Q) (lo hi : Z) :
  (inject_Z lo <= q)%Q -> (q <= inject_Z hi)%Q ->
  (inject_Z lo <= round1 q /\ round1 q <= inject_Z hi)%Q.
Proof.
  intros L U. unfold round1.
  assert (A : (10 * lo <= round_half_even (q * 10))%Z).
  { apply round_half_even_ge. rewrite inject_Z_mult.
    change (inject_Z 10) with 10%Q. lra. }
  assert (B : (round_half_even (q * 10) <= 10 * hi)%Z).
  { apply round_half_even_le. rewrite inject_Z_mult.
    change (inject_Z 10) with 10%Q. lra. }
  apply inject_Z_le in A, B. rewrite inject_Z_mult in A, B.
  change (inject_Z 10) with 10%Q in A, B.
  split.
  - apply Qle_shift_div_l; [reflexivity|]. lra.
  - apply Qle_shift_div_r; [reflexivity|]. lra.
Qed.

Lemma div_nat_bounds (a b : nat) :
  (a <= b)%nat -> (0 < b)%nat ->
  (0 <= div_nat a b * 100 /\ div_nat a b * 100 <= 100)%Q.
Proof.
  intros H Hb. unfold div_nat.
  assert (Pb : (0 < inject_Z (Z.of_nat b))%Q).
  { change 0%Q with (inject_Z 0). apply inject_Z_lt. lia. }
  assert (Pa : (0 <= inject_Z (Z.of_nat a))%Q).
  { change 0%Q with (inject_Z 0). apply inject_Z_le. lia. }
  assert (Pab : (inject_Z (Z.of_nat a) <= inject_Z (Z.of_nat b))%Q).
  { apply inject_Z_le. lia. }
  assert (L : (0 <= inject_Z (Z.of_nat a) / inject_Z (Z.of_nat b))%Q).
  { apply Qle_shift_div_l; [exact Pb|]. lra. }
  assert (U : (inject_Z (Z.of_nat a) / inject_Z (Z.of_nat b) <= 1)%Q).
  { apply Qle_shift_div_r; [exact Pb|]. lra. }
  lra.
Qed.



End Rounding.

(** * verify_solution.py: the score *)

Section ScoreAggregator.
Import Py VerifySolution.

Lemma count_pos {A : Type} (p : A -> bool) (xs : list A) (x : A) :
  In x xs -> p x = true -> (0 < count p xs)%nat.
Proof.
  unfold count. induction xs as [|y xs IH]; simpl; [tauto|].
  intros [->|Hx] Px.
  - rewrite Px. simpl. lia.
  - destruct (p y); simpl; [lia|auto].
Qed.

(** [all_required_passed] says that every required outcome has passed; with
    no required outcome it holds. *)
Lemma all_required_passed_iff (results : list CheckResult) :
  all_required_passed results = true <->
  (forall r, In r results -> required r = true -> passed r = true).
Proof.
  unfold all_required_passed.
  destruct (0 <? count required results)%nat eqn:E.
  - rewrite Nat.eqb_eq. apply count_and_eq.
  - apply Nat.ltb_ge in E. split; [|reflexivity].
    intros _ r Hr Req.
    pose proof (count_pos required results r Hr Req). lia.
Qed.

Lemma auto_score_ge_70 (results : list CheckResult) :
  (70 <= auto_score results)%Q <->
  (0 < length results /\
   7 * length results <= 10 * count passed results)%nat.
Proof.
  unfold auto_score. destruct (0 <? length results)%nat eqn:E.
  - apply Nat.ltb_lt in E. rewrite (percent_ge_70 _ _ E). tauto.
  - apply Nat.ltb_ge in E. split.
    + intros H. exfalso. revert H. unfold Qle. simpl. lia.
    + lia.
Qed.

Lemma overall_status_PASS (results : list CheckResult) :
  overall_status (_calculate_score results) = "PASS" <->
  (70 <= auto_score results)%Q /\ all_required_passed results = true.
Proof.
  unfold _calculate_score; cbn [overall_status].
  rewrite <- Qle_bool_iff.
  destruct (Qle_bool 70 (auto_score results)),
           (all_required_passed results);
    simpl; split; try tauto; try discriminate; intros [? ?]; discriminate.
Qed.


(** Where the percentage lies halfway between two decimals the binary64
    product decides: 23 passed of 80 is 28.75, the product is just below
    and is reported as 28.7, the decimal next to the other neighbour
    28.8 of the exact percentage. *)
Lemma score_at_a_tie :
  (div_nat 23 80 * 100 == 28.75)%Q /\
  option_map (Qeq_bool 28.7) (round1_binary64 (percent_binary64 23 80))
  = Some true /\
  (round1 (div_nat 23 80 * 100) == 28.8)%Q.
Proof. repeat split; vm_compute; reflexivity. Qed.


End ScoreAggregator.

(** * verify_solution.py: the check executor *)

Section CheckExecutor.
Import Py VerifySolution.

Variable w : World.

(** Unfolds the computation on the [result] dict. *)
Ltac run_body :=
  unfold _execute_check, execute_body;
  cbn [String.eqb Ascii.eqb Bool.eqb];
  unfold try_except, bind, call, ret, set_passed, set_message, get_passed;
  cbn [fst snd passed message required name description].

Lemma str_bool_lower (b : bool) :
  lower (str_bool b) = if b then "true" else "false".
Proof. destruct b; reflexivity. Qed.

(** What [_execute_check] stores for a [file_exists] check. *)
Lemma file_exists_passed (target expected : string) :
  passed (_execute_check w "file_exists" target expected)
  = (lower (str_bool (path_exists w (resolve w target))) =? lower expected).
Proof. reflexivity. Qed.

(** C5, as the code has it.  A [file_exists] check passes exactly when the
    lowered text of the existence flag ("true" or "false") equals
    [expected.lower()]: the file is there and [expected] is "true" in any
    case of letters, or it is not there and [expected] is "false" in any
    case of letters.  For these two values of [expected] that is
    [exists == (expected.lower() == "true")].  A target that begins with a
    slash is used as it is, any other is resolved under the solution
    root. *)
Theorem C5_file_exists (target expected : string) :
  passed (_execute_check w "file_exists" target expected)
  = (lower (str_bool (path_exists w (resolve w target))) =? lower expected)
  /\
  (passed (_execute_check w "file_exists" target expected) = true <->
   (path_exists w (resolve w target) = true /\ lower expected = "true") \/
   (path_exists w (resolve w target) = false /\ lower expected = "false"))
  /\
  (lower expected = "true" \/ lower expected = "false" ->
   (passed (_execute_check w "file_exists" target expected) = true <->
    path_exists w (resolve w target) = (lower expected =? "true")))
  /\
  (startswith "/" target = true -> resolve w target = target)
  /\
  (startswith "/" target = false ->
   resolve w target = os_path_join (solution_dir w) target)
  /\
  message (_execute_check w "file_exists" target expected)
  = "File " ++ target ++ " exists: "
    ++ str_bool (path_exists w (resolve w target)).
Proof.
  rewrite file_exists_passed, str_bool_lower.
  repeat split.
  - rewrite String.eqb_eq.
    destruct (path_exists w (resolve w target)); intros H; auto.
  - rewrite String.eqb_eq.
    destruct (path_exists w (resolve w target));
      intros [[? ?]|[? ?]]; congruence.
  - destruct H as [H|H]; rewrite H;
      destruct (path_exists w (resolve w target)); simpl; congruence.
  - destruct H as [H|H]; rewrite H;
      destruct (path_exists w (resolve w target)); simpl; congruence.
  - unfold resolve. now intros ->.
  - unfold resolve. now intros ->.
Qed.

(** The handler of [_execute_check] catches whatever its body raises. *)
Lemma execute_check_returns (check_type target expected : string)
    (r : CheckResult) :
  fst (try_except
         (execute_body w check_type target expected)
         (fun e => set_message ("Error: " ++ exc_str e)) r) = Ok tt.
Proof.
  unfold try_except.
  destruct (execute_body w check_type target expected r) as [[[]|e] r'];
    reflexivity.
Qed.

Ltac split_oracles target :=
  destruct (looks_like_command target);
  try destruct (subprocess_run w target 10 (solution_dir w))
    as [[out err]|[]];
  cbn [fst snd passed message];
  destruct (path_exists w (resolve w target));
  cbn [fst snd passed message];
  try destruct (read_text w (resolve w target)) as [text|exn];
  cbn [fst snd passed message].

Lemma output_contains_message (target expected : string) :
  message (_execute_check w "output_contains" target expected) <> "".
Proof.
  run_body. split_oracles target;
    repeat match goal with
           | |- context [truthy ?c] =>
               destruct (truthy c); cbn [fst snd passed message]
           end;
    discriminate.
Qed.

Lemma output_contains_read_failure (target expected : string)
    (e : exception) :
  no_command_output w target ->
  path_exists w (resolve w target) = true ->
  read_text w (resolve w target) = Raise e ->
  passed (_execute_check w "output_contains" target expected) = false /\
  message (_execute_check w "output_contains" target expected)
  = "Error: " ++ exc_str e.
Proof.
  intros [L|[L [e' R]]] P T; run_body; rewrite L; try rewrite R;
    try (destruct e'); cbn [fst snd passed message];
    rewrite P; cbn [fst snd]; rewrite T; cbn [fst snd passed message];
    split; reflexivity.
Qed.

Lemma output_contains_no_file (target expected : string) :
  no_command_output w target ->
  path_exists w (resolve w target) = false ->
  passed (_execute_check w "output_contains" target expected) = false /\
  message (_execute_check w "output_contains" target expected)
  = could_not_get_content target.
Proof.
  intros [L|[L [e' R]]] P; run_body; rewrite L; try rewrite R;
    try (destruct e'); cbn [fst snd passed message];
    rewrite P; cbn [fst snd passed message]; split; reflexivity.
Qed.

Lemma output_contains_from_file (target expected text : string) :
  no_command_output w target ->
  path_exists w (resolve w target) = true ->
  read_text w (resolve w target) = Ok text ->
  passed (_execute_check w "output_contains" target expected)
  = truthy text && contains (str_lower w expected) (str_lower w text) /\
  message (_execute_check w "output_contains" target expected)
  = if truthy text
    then "'" ++ expected ++ "' found: "
         ++ str_bool (contains (str_lower w expected) (str_lower w text))
    else could_not_get_content target.
Proof.
  intros [L|[L [e' R]]] P T; run_body; rewrite L; try rewrite R;
    try (destruct e'); cbn [fst snd passed message];
    rewrite P; cbn [fst snd]; rewrite T; cbn [fst snd passed message];
    destruct (truthy text); cbn [fst snd passed message];
    split; reflexivity.
Qed.

Lemma output_contains_from_command (target expected out err : string) :
  looks_like_command target = true ->
  subprocess_run w target 10 (solution_dir w) = Ok (out, err) ->
  passed (_execute_check w "output_contains" target expected)
  = truthy (out ++ err)
    && contains (str_lower w expected) (str_lower w (out ++ err)) /\
  message (_execute_check w "output_contains" target expected)
  = if truthy (out ++ err)
    then "'" ++ expected ++ "' found: "
         ++ str_bool (contains (str_lower w expected)
                               (str_lower w (out ++ err)))
    else could_not_get_content target.
Proof.
  intros L R; run_body; rewrite L, R; cbn [fst snd passed message].
  destruct (truthy (out ++ err)); cbn [fst snd passed message];
    split; reflexivity.
Qed.

(** C4, as the code has it.  [_execute_check] never raises: whatever
    its body raises is caught and becomes the message "Error: ..." of the
    outcome, which keeps the [passed] flag it had.  An [output_contains]
    check always carries a message.  A read that fails gives a failed
    outcome with the message "Error: ...".  After a command that ran out
    of time the target is tried as a file path: with no such file the
    outcome is failed; with such a file the check is decided on the text of
    the file, which must not be empty and must hold [expected], both
    lowered by [str.lower()]. *)
Theorem C4_output_contains_failures (target expected : string) :
  (forall check_type r,
     fst (try_except
            (execute_body w check_type target expected)
            (fun e => set_message ("Error: " ++ exc_str e)) r) = Ok tt) /\
  (forall check_type e r,
     execute_body w check_type target expected
       {| name := check_type ++ "_" ++ slice_to 20 target;
          description := check_type ++ " check for " ++ target;
          passed := false; required := false; message := "" |}
     = (Raise e, r) ->
     message (_execute_check w check_type target expected)
     = "Error: " ++ exc_str e /\
     passed (_execute_check w check_type target expected) = passed r) /\
  message (_execute_check w "output_contains" target expected) <> "" /\
  (forall e,
     no_command_output w target ->
     path_exists w (resolve w target) = true ->
     read_text w (resolve w target) = Raise e ->
     passed (_execute_check w "output_contains" target expected) = false /\
     message (_execute_check w "output_contains" target expected)
     = "Error: " ++ exc_str e) /\
  (forall msg,
     looks_like_command target = true ->
     subprocess_run w target 10 (solution_dir w)
     = Raise (TimeoutExpired msg) ->
     path_exists w (resolve w target) = false ->
     passed (_execute_check w "output_contains" target expected)
     = false) /\
  (forall msg text,
     looks_like_command target = true ->
     subprocess_run w target 10 (solution_dir w)
     = Raise (TimeoutExpired msg) ->
     path_exists w (resolve w target) = true ->
     read_text w (resolve w target) = Ok text ->
     passed (_execute_check w "output_contains" target expected)
     = truthy text && contains (str_lower w expected) (str_lower w text)).
Proof.
  split; [|split; [|split; [|split; [|split]]]].
  - intros. apply execute_check_returns.
  - intros check_type e r H. unfold _execute_check, try_except.
    rewrite H. split; reflexivity.
  - apply output_contains_message.
  - intros e. apply output_contains_read_failure.
  - intros msg L R P.
    apply (output_contains_no_file target expected); [|assumption].
    right. eauto.
  - intros msg text L R P T.
    apply output_contains_from_file; [|assumption|assumption].
    right. eauto.
Qed.

(** C9.  When the content an [output_contains] check captures is the empty
    string (the command printed nothing, or the file that is read is
    empty), the outcome is failed with the message "Could not get content
    from: " followed by the first 50 characters of the target, whatever
    [expected] is. *)
Theorem C9_empty_content_fails (target expected : string) :
  (looks_like_command target = true /\
   exists out err,
     subprocess_run w target 10 (solution_dir w) = Ok (out, err) /\
     out ++ err = "") \/
  (no_command_output w target /\
   path_exists w (resolve w target) = true /\
   read_text w (resolve w target) = Ok "") ->
  passed (_execute_check w "output_contains" target expected) = false /\
  message (_execute_check w "output_contains" target expected)
  = "Could not get content from: " ++ slice_to 50 target.
Proof.
  intros [[L [out [err [R E]]]]|[N [P T]]].
  - destruct (output_contains_from_command target expected out err L R)
      as [Hp Hm].
    rewrite Hp, Hm, E. split; reflexivity.
  - destruct (output_contains_from_file target expected "" N P T)
      as [Hp Hm].
    rewrite Hp, Hm. split; reflexivity.
Qed.

End CheckExecutor.

(** C5 as the spec words it fails for a file that is not there and the
    expected value "no": existence (false) equals
    [expected.lower() == "true"] (false), and the check does not pass. *)
Lemma C5_expected_no_counterexample :
  VerifySolution.passed
    (VerifySolution._execute_check Examples.empty_world
       "file_exists" "report.txt" "no") = false /\
  VerifySolution.path_exists Examples.empty_world
    (VerifySolution.resolve Examples.empty_world "report.txt")
  = (Py.lower "no" =? "true").
Proof. split; reflexivity. Qed.

(** C4 as the spec words it fails when the command runs out of time and
    the solution directory holds a file whose name is the text of the
    command: the file is read and the check passes. *)
Lemma C4_timeout_counterexample :
  VerifySolution.looks_like_command Examples.slow_command = true /\
  VerifySolution.subprocess_run Examples.slow_world Examples.slow_command
    10 (VerifySolution.solution_dir Examples.slow_world)
  = Py.Raise (Py.TimeoutExpired Examples.slow_command) /\
  VerifySolution.passed
    (VerifySolution._execute_check Examples.slow_world
       "output_contains" Examples.slow_command "done") = true.
Proof. repeat split. Qed.

(** An empty command output does not pass, even for the expected value
    that is the empty string. *)
Lemma C9_empty_content_fails_witness :
  VerifySolution.passed
    (VerifySolution._execute_check Examples.empty_world
       "output_contains" "cat notes.txt" "") = false /\
  VerifySolution.message
    (VerifySolution._execute_check Examples.empty_world
       "output_contains" "cat notes.txt" "")
  = "Could not get content from: cat notes.txt".
Proof.
  apply (C9_empty_content_fails Examples.empty_world "cat notes.txt" "").
  left. split; [reflexivity|]. exists "", "". split; reflexivity.
Defined.

(** * verify_solution.py: the canary token *)

Section CanaryAuditor.
Import Py VerifySolution.

(** Induction on a tree, with the hypothesis on every entry of a
    directory. *)
Lemma node_induction (P : node -> Prop)
    (file : forall text, P (RegularFile text))
    (dir : forall entries,
        Forall (fun e => P (snd e)) entries -> P (Directory entries))
    (special : P Special) (n : node) : P n.
Proof.
  revert n. fix self 1. intros [text|entries|].
  - apply file.
  - apply dir. induction entries as [|e es IH]; constructor.
    + apply self.
    + exact IH.
  - apply special.
Qed.

Lemma rglob_Directory (entries : list (string * node)) :
  rglob (Directory entries)
  = (map snd entries ++ flat_map (fun e => rglob (snd e)) entries)%list.
Proof.
  cbn [rglob]. f_equal.
  induction entries as [|[name child] es IH]; [reflexivity|].
  cbn [flat_map snd]. now rewrite <- IH.
Qed.

Lemma rglob_reaches (root n : node) :
  In n (rglob root) -> exists path, reaches root path n.
Proof.
  revert n. induction root as [text|entries IH|] using node_induction;
    intros n H; try contradiction.
  rewrite rglob_Directory in H. apply in_app_or in H.
  destruct H as [H|H].
  - apply in_map_iff in H. destruct H as [[name child] [E H]].
    simpl in E. subst child. exists [name]. now constructor.
  - apply in_flat_map in H. destruct H as [[name sub] [Hin H]].
    rewrite Forall_forall in IH.
    destruct (IH _ Hin n H) as [path R].
    exists (name :: path). now apply reaches_below with sub.
Qed.

Lemma reaches_rglob (root : node) (path : list string) (n : node) :
  reaches root path n -> In n (rglob root).
Proof.
  induction 1 as [entries name child H|entries name sub path n H R IH];
    rewrite rglob_Directory; apply in_or_app.
  - left. apply in_map_iff. now exists (name, child).
  - right. apply in_flat_map. now exists (name, sub).
Qed.

(** The loop finds the token exactly when one of the files that can be
    read holds it. *)
Lemma scan_files_true (canary : string) (files : list node) :
  scan_files canary files = true <->
  exists content,
    In (RegularFile (Ok content)) files /\ contains canary content = true.
Proof.
  induction files as [|file rest IH]; cbn [scan_files].
  - split; [discriminate|]. now intros [? [[] ?]].
  - destruct file as [[content|e]| |]; cbn [is_file].
    + destruct (contains canary content) eqn:C.
      * split; [|reflexivity]. intros _. exists content. split; [now left|].
        assumption.
      * rewrite IH. split; intros [c [Hin Hc]]; exists c.
        -- split; [now right|assumption].
        -- destruct Hin as [E|Hin]; [|now split].
           inversion E; subst. congruence.
    + rewrite IH. split; intros [c [Hin Hc]]; exists c.
      * split; [now right|assumption].
      * destruct Hin as [E|Hin]; [discriminate|now split].
    + rewrite IH. split; intros [c [Hin Hc]]; exists c.
      * split; [now right|assumption].
      * destruct Hin as [E|Hin]; [discriminate|now split].
    + rewrite IH. split; intros [c [Hin Hc]]; exists c.
      * split; [now right|assumption].
      * destruct Hin as [E|Hin]; [discriminate|now split].
Qed.

(** The scan of the whole tree, in terms of the files below the root. *)
Lemma scan_tree_true (canary : string) (root : node) :
  scan_files canary (rglob root) = true <->
  exists path content,
    reaches root path (RegularFile (Ok content)) /\
    contains canary content = true.
Proof.
  rewrite scan_files_true. split.
  - intros [content [Hin C]]. apply rglob_reaches in Hin.
    destruct Hin as [path R]. now exists path, content.
  - intros [path [content [R C]]]. exists content.
    split; [now apply reaches_rglob with path|assumption].
Qed.

Lemma scan_tree_false (canary : string) (root : node) :
  scan_files canary (rglob root) = false <->
  forall path content,
    reaches root path (RegularFile (Ok content)) ->
    contains canary content = false.
Proof.
  split.
  - intros H path content R.
    destruct (contains canary content) eqn:C; [|reflexivity].
    assert (scan_files canary (rglob root) = true)
      by (apply scan_tree_true; now exists path, content).
    congruence.
  - intros H. destruct (scan_files canary (rglob root)) eqn:S;
      [|reflexivity].
    apply scan_tree_true in S. destruct S as [path [content [R C]]].
    specialize (H path content R). congruence.
Qed.

Lemma truthy_true (s : string) : truthy s = true <-> s <> "".
Proof.
  unfold truthy. rewrite negb_true_iff. apply String.eqb_neq.
Qed.

(** What [_check_canary_token] appends for a token that is declared. *)
Lemma check_canary_token_declared (w : World) (task : TaskYaml)
    (results : list CheckResult) (canary : string) :
  canary_token task = Some canary ->
  canary <> "" ->
  _check_canary_token w task results
  = (results ++
     [ {| name := "canary_token";
          description := "Canary token present in solution";
          passed := scan_files canary (rglob (solution_tree w));
          required := true;
          message :=
            "Canary '" ++ slice_to 30 canary ++ "...' "
            ++ (if scan_files canary (rglob (solution_tree w))
                then "found" else "NOT FOUND") |} ])%list.
Proof.
  intros E N. unfold _check_canary_token. rewrite E.
  apply truthy_true in N. now rewrite N.
Qed.

(** C6.  For a declared token, [_check_canary_token] appends one required
    outcome; it has passed exactly when some regular file below the
    solution root, at any depth, can be read and holds the token as a
    substring of its text.  On an empty tree it has not passed.  With no
    token declared (the key absent, or empty) nothing is appended. *)
Theorem C6_canary_auditor (w : World) (task : TaskYaml)
    (results : list CheckResult) :
  (forall canary,
     canary_token task = Some canary ->
     canary <> "" ->
     exists outcome,
       _check_canary_token w task results = (results ++ [outcome])%list /\
       required outcome = true /\
       (passed outcome = true <->
        exists path content pre post,
          reaches (solution_tree w) path (RegularFile (Ok content)) /\
          content = pre ++ canary ++ post) /\
       (solution_tree w = Directory [] -> passed outcome = false)) /\
  (canary_token task = None \/ canary_token task = Some "" ->
   _check_canary_token w task results = results).
Proof.
  split.
  - intros canary E N.
    rewrite (check_canary_token_declared w task results canary E N).
    eexists. split; [reflexivity|]. cbn [required passed].
    split; [reflexivity|]. split.
    + rewrite scan_tree_true. split.
      * intros [path [content [R C]]]. apply contains_app in C.
        destruct C as [pre [post C]]. now exists path, content, pre, post.
      * intros [path [content [pre [post [R C]]]]].
        exists path, content. split; [assumption|].
        apply contains_app. now exists pre, post.
    + intros ->. reflexivity.
  - unfold _check_canary_token. intros [->| ->]; reflexivity.
Qed.

Lemma keeps_bind {A B : Type} (m : M A) (k : A -> M B) :
  keeps_required m -> (forall a, keeps_required (k a)) ->
  keeps_required (bind m k).
Proof.
  intros Hm Hk r. unfold bind. specialize (Hm r).
  destruct (m r) as [[a|e] r']; cbn [snd] in *.
  - now rewrite Hk.
  - assumption.
Qed.

Lemma keeps_try_except {A : Type} (m : M A) (h : exception -> M A) :
  keeps_required m -> (forall e, keeps_required (h e)) ->
  keeps_required (try_except m h).
Proof.
  intros Hm Hh r. unfold try_except. specialize (Hm r).
  destruct (m r) as [[a|e] r']; cbn [snd] in *.
  - assumption.
  - now rewrite Hh.
Qed.

Ltac keeps :=
  repeat first
    [ apply keeps_bind; [|intros ?]
    | apply keeps_try_except; [|intros ?]
    | match goal with
      | |- keeps_required (if ?b then _ else _) => destruct b
      | |- keeps_required (match ?x with _ => _ end) => destruct x
      end
    | intros ?; reflexivity ].

Lemma execute_body_keeps_required (w : World)
    (check_type target expected : string) :
  keeps_required (execute_body w check_type target expected).
Proof. unfold execute_body. keeps. Qed.

Lemma execute_check_not_required (w : World)
    (check_type target expected : string) :
  required (_execute_check w check_type target expected) = false.
Proof.
  unfold _execute_check.
  rewrite keeps_try_except; [reflexivity| |].
  - apply execute_body_keeps_required.
  - intros e r. reflexivity.
Qed.

Lemma run_automated_checks_app (w : World) (task : TaskYaml)
    (results : list CheckResult) :
  _run_automated_checks w task results
  = (results ++
     map (fun check => _execute_check w (check_type check) (target check)
                                      (expected check))
         (automated_checks task))%list.
Proof.
  unfold _run_automated_checks.
  assert (G : forall checks acc,
             fold_left
               (fun acc check =>
                  (acc ++ [_execute_check w (check_type check)
                             (target check) (expected check)])%list)
               checks acc
             = (acc ++
                map (fun check =>
                       _execute_check w (check_type check) (target check)
                                      (expected check)) checks)%list).
  { induction checks as [|c cs IH]; intros acc; cbn [fold_left map].
    - now rewrite app_nil_r.
    - rewrite IH, <- app_assoc. reflexivity. }
  destruct (automated_checks task) as [|c cs] eqn:E.
  - now rewrite app_nil_r.
  - apply G.
Qed.

Lemma count_none {A : Type} (p : A -> bool) (xs : list A) :
  (forall x, In x xs -> p x = false) -> count p xs = 0%nat.
Proof.
  unfold count. induction xs as [|x xs IH]; intros H; [reflexivity|].
  simpl. rewrite (H x (or_introl eq_refl)). apply IH.
  intros y Hy. apply H. now right.
Qed.

(** C8.  A declared, non-empty canary token adds an outcome with
    [required = true]; when no file below the solution root holds the
    token, [all_required_passed] is false and the status is FAIL, whatever
    the automated checks give. *)
Theorem C8_missing_canary_fails (w : World) (task : TaskYaml)
    (canary : string) :
  canary_token task = Some canary ->
  canary <> "" ->
  (forall path content,
     reaches (solution_tree w) path (RegularFile (Ok content)) ->
     contains canary content = false) ->
  (exists outcome,
     _check_canary_token w task [] = [outcome] /\
     required outcome = true /\ passed outcome = false) /\
  all_passed (verify w task) = false /\
  overall_status (verify w task) = "FAIL".
Proof.
  intros E N H. apply scan_tree_false in H.
  pose proof (check_canary_token_declared w task [] canary E N) as C.
  rewrite H in C. cbn [app] in C.
  split; [eexists; split; [exact C|split; reflexivity]|].
  assert (A : all_required_passed
                (_run_automated_checks w task
                   (_check_canary_token w task [])) = false).
  { rewrite C, run_automated_checks_app. unfold all_required_passed.
    rewrite !count_app.
    rewrite (count_none required (map _ _)).
    - rewrite (count_none (fun r => required r && passed r) (map _ _)).
      + reflexivity.
      + intros r Hr. apply in_map_iff in Hr. destruct Hr as [c [<- _]].
        now rewrite execute_check_not_required.
    - intros r Hr. apply in_map_iff in Hr. destruct Hr as [c [<- _]].
      apply execute_check_not_required. }
  unfold verify, _calculate_score. cbn [all_passed overall_status].
  rewrite A, andb_false_r. split; reflexivity.
Qed.

End CanaryAuditor.

(** * verify_fixes.py: the pattern verifier *)

Section PatternVerifier.
Import Py VerifyFixes SpecWords.

Variable w : World.
Variable self : SecurityVerifier.

Lemma read_file_missing (relative_path msg : string) :
  open_read w (os_path_join (base_path self) relative_path)
  = Raise (FileNotFoundError msg) ->
  _read_file w self relative_path = Ok None.
Proof. unfold _read_file. now intros ->. Qed.

Lemma run_check_verdict (check : VulnerabilityCheck)
    (content : string) (vulnerable_found fix_found : bool) :
  _read_file w self (file_path check) = Ok (Some content) ->
  has_vulnerability w content check = Ok vulnerable_found ->
  has_fix w content check = Ok fix_found ->
  exists message,
    run_check w self check
    = Ok {| check := check;
            result := decision_table vulnerable_found fix_found;
            message := message |}.
Proof.
  intros R V F. unfold run_check. rewrite R. cbn [bindR].
  rewrite V. cbn [bindR]. rewrite F. cbn [bindR].
  destruct vulnerable_found, fix_found; cbn; eexists; reflexivity.
Qed.

(** C2, as the code has it.  When the file of a check is read and both
    searches return, [run_check] returns the verdict of the four-row table
    on whether the vulnerable pattern and the fix pattern were found, each
    searched in the content with the flags MULTILINE and DOTALL; a fix
    pattern that is [None] or empty is not searched for and counts as not
    found.  When one of the two searches raises, or the read raises what
    is not an [IOError], so does [run_check].  When the file is missing it
    returns SKIP and does not raise. *)
Theorem C2_run_check_decision_table (check : VulnerabilityCheck) :
  (forall content vulnerable_found fix_found,
     _read_file w self (file_path check) = Ok (Some content) ->
     has_vulnerability w content check = Ok vulnerable_found ->
     has_fix w content check = Ok fix_found ->
     exists message,
       run_check w self check
       = Ok {| check := check;
               result := decision_table vulnerable_found fix_found;
               message := message |}) /\
  (forall content,
     open_read w (os_path_join (base_path self) (file_path check))
     = Ok content ->
     _read_file w self (file_path check) = Ok (Some content)) /\
  (forall content p,
     vulnerable_pattern check = Some p ->
     has_vulnerability w content check
     = re_search w p content (Z.lor re_MULTILINE re_DOTALL)) /\
  (forall content p,
     fixed_pattern check = Some p -> p <> "" ->
     has_fix w content check
     = re_search w p content (Z.lor re_MULTILINE re_DOTALL)) /\
  (forall msg,
     open_read w (os_path_join (base_path self) (file_path check))
     = Raise (FileNotFoundError msg) ->
     run_check w self check
     = Ok {| check := check; result := SKIP;
             message := "File not found: " ++ file_path check |}) /\
  (forall content p vulnerable_found fix_found,
     open_read w (os_path_join (base_path self) (file_path check))
     = Ok content ->
     vulnerable_pattern check = Some p ->
     re_search w p content (Z.lor re_MULTILINE re_DOTALL)
     = Ok vulnerable_found ->
     match fixed_pattern check with
     | Some q =>
         if truthy q
         then re_search w q content (Z.lor re_MULTILINE re_DOTALL)
              = Ok fix_found
         else fix_found = false
     | None => fix_found = false
     end ->
     exists message,
       run_check w self check
       = Ok {| check := check;
               result := decision_table vulnerable_found fix_found;
               message := message |}) /\
  (forall content p e,
     open_read w (os_path_join (base_path self) (file_path check))
     = Ok content ->
     vulnerable_pattern check = Some p ->
     re_search w p content (Z.lor re_MULTILINE re_DOTALL) = Raise e ->
     run_check w self check = Raise e) /\
  (forall content p q vulnerable_found e,
     open_read w (os_path_join (base_path self) (file_path check))
     = Ok content ->
     vulnerable_pattern check = Some p ->
     re_search w p content (Z.lor re_MULTILINE re_DOTALL)
     = Ok vulnerable_found ->
     fixed_pattern check = Some q -> q <> "" ->
     re_search w q content (Z.lor re_MULTILINE re_DOTALL) = Raise e ->
     run_check w self check = Raise e) /\
  (forall e,
     open_read w (os_path_join (base_path self) (file_path check))
     = Raise e ->
     is_IOError e = false ->
     run_check w self check = Raise e).
Proof.
  split; [|split; [|split; [|split; [|split; [|split; [|split; [|split]]]]]]].
  - apply run_check_verdict.
  - unfold _read_file. now intros content ->.
  - intros content p E. unfold has_vulnerability, _check_pattern.
    now rewrite E.
  - intros content p E N. unfold has_fix, _check_pattern, truthy_opt.
    rewrite E. apply truthy_true in N. now rewrite N.
  - intros msg E. unfold run_check.
    now rewrite (read_file_missing _ _ E).
  - intros content p vulnerable_found fix_found O V S F.
    apply (run_check_verdict check content vulnerable_found fix_found).
    + unfold _read_file. now rewrite O.
    + unfold has_vulnerability, _check_pattern. now rewrite V.
    + unfold has_fix, _check_pattern, truthy_opt.
      destruct (fixed_pattern check) as [q|]; [|now subst].
      destruct (truthy q); [assumption|now subst].
  - intros content p e O V S. unfold run_check, _read_file. rewrite O.
    cbn [bindR]. unfold has_vulnerability, _check_pattern.
    now rewrite V, S.
  - intros content p q vulnerable_found e O V S F N X.
    unfold run_check, _read_file. rewrite O. cbn [bindR].
    unfold has_vulnerability, has_fix, _check_pattern, truthy_opt.
    rewrite V, S, F. cbn [bindR]. apply truthy_true in N. rewrite N.
    now rewrite X.
  - intros e O I. unfold run_check, _read_file. rewrite O.
    destruct e; try discriminate; reflexivity.
Qed.

Lemma run_check_None_raises (w' : World) (check : VulnerabilityCheck)
    (content : string) :
  vulnerable_pattern check = None ->
  _read_file w' self (file_path check) = Ok (Some content) ->
  run_check w' self check
  = Raise (TypeError "first argument must be string or compiled pattern").
Proof.
  intros E R. unfold run_check. rewrite R. cbn [bindR].
  unfold has_vulnerability, _check_pattern. now rewrite E.
Qed.

(** C10.  A [fixed_pattern] that is [None] is not searched for and counts
    as no fix found.  A [vulnerable_pattern] that is [None] makes
    [run_check] raise as soon as the file can be read, so [run_check]
    returns in every world only if [vulnerable_pattern] is not [None];
    then it does return wherever the engine and the read do not raise.
    Every check of [_define_checks] has a [vulnerable_pattern]. *)
Theorem C10_run_check_totality (check : VulnerabilityCheck) :
  (fixed_pattern check = None ->
   forall content, has_fix w content check = Ok false) /\
  (vulnerable_pattern check = None ->
   forall content,
     _read_file w self (file_path check) = Ok (Some content) ->
     exists msg, run_check w self check = Raise (TypeError msg)) /\
  ((forall w', exists outcome, run_check w' self check = Ok outcome) ->
   vulnerable_pattern check <> None) /\
  (vulnerable_pattern check <> None ->
   (forall p content flags, exists b, re_search w p content flags = Ok b) ->
   (forall e,
      open_read w (os_path_join (base_path self) (file_path check))
      = Raise e -> is_IOError e = true) ->
   exists outcome, run_check w self check = Ok outcome) /\
  Forall (fun c => vulnerable_pattern c <> None) _define_checks /\
  checks (new (base_path self)) = _define_checks.
Proof.
  split; [|split; [|split; [|split; [|split]]]].
  - intros E content. unfold has_fix. now rewrite E.
  - intros E content R. eexists.
    apply (run_check_None_raises w check content E R).
  - intros H E. destruct (H Examples.quiet_world) as [outcome O].
    rewrite (run_check_None_raises Examples.quiet_world check "" E) in O;
      [discriminate|reflexivity].
  - intros N S I. unfold run_check, _read_file.
    destruct (open_read w (os_path_join (base_path self) (file_path check)))
      as [content|e] eqn:R.
    + cbn [bindR]. unfold has_vulnerability, has_fix, _check_pattern.
      destruct (vulnerable_pattern check) as [p|]; [|congruence].
      destruct (S p content (Z.lor re_MULTILINE re_DOTALL)) as [hv ->].
      cbn [bindR].
      destruct (fixed_pattern check) as [q|]; cbn [truthy_opt].
      * destruct (truthy q).
        -- destruct (S q content (Z.lor re_MULTILINE re_DOTALL))
             as [hf ->].
           cbn [bindR]. destruct hv, hf; cbn; eexists; reflexivity.
        -- cbn [bindR]. destruct hv; cbn; eexists; reflexivity.
      * cbn [bindR]. destruct hv; cbn; eexists; reflexivity.
    + specialize (I e eq_refl).
      destruct e; try discriminate; cbn; eexists; reflexivity.
  - unfold _define_checks. repeat constructor; discriminate.
  - reflexivity.
Qed.

End PatternVerifier.

(** * verify_fixes.py: the severity-weighted score *)

Section SeverityScore.
Import Py VerifyFixes SpecWords.

Lemma sumZ_from (xs : list Z) (a : Z) :
  fold_left Z.add xs a = (a + sumZ xs)%Z.
Proof.
  unfold sumZ. revert a. induction xs as [|x xs IH]; intros a; simpl.
  - lia.
  - rewrite IH, (IH x). lia.
Qed.

Lemma sumZ_cons (x : Z) (xs : list Z) : sumZ (x :: xs) = (x + sumZ xs)%Z.
Proof. unfold sumZ at 1. simpl. apply sumZ_from. Qed.

(** The points of all outcomes are those of the PASS, the FAIL and the
    SKIP outcomes together. *)
Lemma points_by_result (outcomes : list CheckOutcome) :
  sumZ (map (fun o => points (check o)) outcomes)
  = (points_with PASS outcomes + points_with FAIL outcomes
     + points_with SKIP outcomes)%Z.
Proof.
  unfold points_with. induction outcomes as [|o os IH]; [reflexivity|].
  cbn [map filter]. rewrite sumZ_cons, IH.
  destruct o as [c [] m]; cbn [is_result result map check];
    rewrite sumZ_cons; cbn [check]; lia.
Qed.

(** [run_all_checks] gives one outcome for each check, in order. *)
Lemma run_each_checks (w : World) (self : SecurityVerifier)
    (cs : list VulnerabilityCheck) (os : list CheckOutcome) :
  run_each w self cs = Ok os -> map check os = cs.
Proof.
  revert os. induction cs as [|c cs IH]; intros os; cbn [run_each].
  - intros E. now inversion E.
  - destruct (run_check w self c) as [o|e] eqn:R; cbn [bindR];
      [|discriminate].
    destruct (run_each w self cs) as [os'|e] eqn:E; cbn [bindR];
      [|discriminate].
    intros H. inversion H; subst. cbn [map]. f_equal; [|now apply IH].
    revert R. unfold run_check.
    destruct (_read_file w self (file_path c)) as [[content|]|e];
      cbn [bindR]; try discriminate.
    + destruct (has_vulnerability w content c) as [hv|e]; cbn [bindR];
        [|discriminate].
      destruct (has_fix w content c) as [hf|e]; cbn [bindR];
        [|discriminate].
      destruct hv, hf; cbn; intros R; inversion R; reflexivity.
    + intros R; inversion R; reflexivity.
Qed.


(** Where the quotient lies halfway between two decimals the binary64
    product decides: 49 points of 80 are 61.25 percent, the product is
    just above and is reported as 61.3. *)
Lemma percentage_at_a_tie :
  (inject_Z 49 / inject_Z 80 * 100 == 61.25)%Q /\
  option_map (Qeq_bool 61.3) (round1_binary64 (percent_binary64 49 80))
  = Some true /\
  (round1 (inject_Z 49 / inject_Z 80 * 100) == 61.2)%Q.
Proof. repeat split; vm_compute; reflexivity. Qed.

End SeverityScore.


(** * benchmark_evaluation.py: the calibrator *)

Section DictFacts.
Import PyDict.
Context {V : Type}.

Lemma get_set_same (k : string) (v : V) (d : dict V) :
  get k (set k v d) = Some v.
Proof.
  induction d as [|[k' v'] d IH]; cbn [set get].
  - now rewrite String.eqb_refl.
  - destruct (k =? k') eqn:E; cbn [get];
      [now rewrite String.eqb_refl|now rewrite E].
Qed.

Lemma get_set_other (k k' : string) (v : V) (d : dict V) :
  k <> k' -> get k' (set k v d) = get k' d.
Proof.
  intros N. induction d as [|[k0 v0] d IH]; cbn [set get].
  - apply String.eqb_neq in N. rewrite String.eqb_sym in N. now rewrite N.
  - destruct (k =? k0) eqn:E; cbn [get].
    + apply String.eqb_eq in E. subst k0.
      apply String.eqb_neq in N. rewrite String.eqb_sym in N.
      now rewrite N.
    + now rewrite IH.
Qed.

Lemma get_None_keys (k : string) (d : dict V) :
  get k d = None <-> ~ In k (keys d).
Proof.
  unfold keys. induction d as [|[k' v'] d IH]; cbn [get map fst In].
  - tauto.
  - destruct (k =? k') eqn:E.
    + apply String.eqb_eq in E. subst. split; [discriminate|tauto].
    + apply String.eqb_neq in E. rewrite IH. split.
      * intros H [H'|H']; [congruence|tauto].
      * tauto.
Qed.

Lemma keys_set (k : string) (v : V) (d : dict V) :
  keys (set k v d)
  = match get k d with
    | Some _ => keys d
    | None => (keys d ++ [k])%list
    end.
Proof.
  unfold keys. induction d as [|[k' v'] d IH]; cbn [set get map fst app].
  - reflexivity.
  - destruct (k =? k') eqn:E; cbn [map fst].
    + apply String.eqb_eq in E. now subst.
    + rewrite IH. now destruct (get k d).
Qed.

Lemma NoDup_keys_set (k : string) (v : V) (d : dict V) :
  NoDup (keys d) -> NoDup (keys (set k v d)).
Proof.
  intros N. rewrite keys_set. destruct (get k d) eqn:G; [assumption|].
  apply get_None_keys in G.
  apply NoDup_rev in N. rewrite <- (rev_involutive (keys d ++ [k])).
  apply NoDup_rev. rewrite rev_app_distr. cbn [rev app].
  constructor; [|assumption]. now rewrite <- in_rev.
Qed.

(** In a dict an item is found under its key. *)
Lemma In_get (k : string) (v : V) (d : dict V) :
  NoDup (keys d) -> (In (k, v) d <-> get k d = Some v).
Proof.
  unfold keys. induction d as [|[k' v'] d IH]; cbn [get map fst In].
  - intros _. split; [tauto|discriminate].
  - intros N. inversion N as [|? ? Hk Hd]; subst.
    destruct (k =? k') eqn:E.
    + apply String.eqb_eq in E. subst k'. split.
      * intros [H|H]; [congruence|].
        exfalso. apply Hk. apply in_map_iff. now exists (k, v).
      * intros H. left. congruence.
    + apply String.eqb_neq in E. rewrite <- (IH Hd). split.
      * intros [H|H]; [congruence|assumption].
      * tauto.
Qed.

Lemma get_map_values {W : Type} (f : V -> W) (k : string) (d : dict V) :
  get k (map (fun item => (fst item, f (snd item))) d)
  = option_map f (get k d).
Proof.
  induction d as [|[k' v'] d IH]; cbn [map get fst snd]; [reflexivity|].
  now destruct (k =? k').
Qed.

Lemma keys_map_values {W : Type} (f : V -> W) (d : dict V) :
  keys (map (fun item => (fst item, f (snd item))) d) = keys d.
Proof.
  unfold keys. rewrite map_map. now apply map_ext.
Qed.

End DictFacts.

Section SumFacts.
Import Py.

Lemma filter_Permutation {A : Type} (p : A -> bool) (xs ys : list A) :
  Permutation xs ys -> Permutation (filter p xs) (filter p ys).
Proof.
  induction 1 as [|x xs ys P IH|x y xs|xs ys zs P1 IH1 P2 IH2];
    cbn [filter].
  - constructor.
  - destruct (p x); [now constructor|assumption].
  - destruct (p x), (p y); try reflexivity. constructor.
  - now transitivity (filter p ys).
Qed.

Lemma count_perm {A : Type} (p : A -> bool) (xs ys : list A) :
  Permutation xs ys -> count p xs = count p ys.
Proof.
  intros P. unfold count. apply Permutation_length.
  now apply filter_Permutation.
Qed.

End SumFacts.

Section Calibrator.
Import Py PyDict BenchmarkEvaluation.

(** One round of the first loop, seen from one key. *)
Lemma get_tally (d : string) (acc : dict Stats) (r : TaskResult) :
  get d (tally acc r)
  = if get_difficulty r =? d
    then Some (bump (stats_or_fresh (get d acc)) r)
    else get d acc.
Proof.
  unfold tally, mem.
  destruct (get (get_difficulty r) acc) as [s|] eqn:G; cbn [negb].
  - rewrite G. destruct (get_difficulty r =? d) eqn:E.
    + apply String.eqb_eq in E. subst d. now rewrite get_set_same, G.
    + apply String.eqb_neq in E. now rewrite get_set_other.
  - rewrite get_set_same. destruct (get_difficulty r =? d) eqn:E.
    + apply String.eqb_eq in E. subst d. now rewrite get_set_same, G.
    + apply String.eqb_neq in E. now rewrite !get_set_other.
Qed.

Lemma NoDup_keys_tally (acc : dict Stats) (r : TaskResult) :
  NoDup (keys acc) -> NoDup (keys (tally acc r)).
Proof.
  intros N. unfold tally.
  destruct (negb (mem (get_difficulty r) acc)).
  - rewrite get_set_same. now apply NoDup_keys_set, NoDup_keys_set.
  - destruct (get (get_difficulty r) acc); [|assumption].
    now apply NoDup_keys_set.
Qed.

Lemma NoDup_keys_fold_tally (l : list TaskResult) (acc : dict Stats) :
  NoDup (keys acc) -> NoDup (keys (fold_left tally l acc)).
Proof.
  revert acc. induction l as [|r l IH]; intros acc N; cbn [fold_left].
  - assumption.
  - now apply IH, NoDup_keys_tally.
Qed.

(** The first loop, seen from one key: the results of that difficulty
    are folded into its bucket, in order. *)
Lemma get_fold_tally (d : string) (l : list TaskResult) (acc : dict Stats) :
  get d (fold_left tally l acc)
  = match bucket_of d l with
    | [] => get d acc
    | rs => Some (fold_left bump rs (stats_or_fresh (get d acc)))
    end.
Proof.
  revert acc. induction l as [|r l IH]; intros acc;
    cbn [fold_left bucket_of filter]; [reflexivity|].
  rewrite IH, get_tally. fold (bucket_of d l).
  destruct (get_difficulty r =? d); [|reflexivity].
  now destruct (bucket_of d l).
Qed.

Lemma fold_bump (rs : list TaskResult) (s : Stats) :
  fold_left bump rs s
  = {| total := total s + length rs;
       success := success s + count get_success rs;
       durations := (durations s ++ map get_duration rs)%list;
       success_rate := success_rate s;
       avg_duration := avg_duration s |}.
Proof.
  revert s. induction rs as [|r rs IH]; intros s; cbn [fold_left].
  - destruct s. cbn. now rewrite Nat.add_0_r, Nat.add_0_r, app_nil_r.
  - rewrite IH. unfold bump, count.
    cbn [total success durations success_rate avg_duration
         length map filter].
    rewrite <- app_assoc. cbn [app].
    destruct (get_success r); cbn [length]; f_equal; lia.
Qed.

(** What [by_difficulty] holds under a key: the statistics of the
    results of that difficulty, taken in the order of the input. *)
Lemma by_difficulty_get (l : list TaskResult) (d : string) :
  get d (by_difficulty
           (analyze_results {| task_results_key := Some l |}))
  = bucket_stats (bucket_of d l).
Proof.
  unfold analyze_results. cbn [by_difficulty task_results_key].
  rewrite get_map_values, get_fold_tally. cbn [get stats_or_fresh].
  destruct (bucket_of d l) as [|r rs]; [reflexivity|].
  rewrite fold_bump. reflexivity.
Qed.

Lemma bucket_counts_perm (rs rs' : list TaskResult) :
  Permutation rs rs' ->
  option_map counts_view (bucket_stats rs)
  = option_map counts_view (bucket_stats rs').
Proof.
  intros P. unfold bucket_stats.
  destruct rs as [|r rs], rs' as [|r' rs']; try reflexivity.
  - apply Permutation_nil in P. discriminate.
  - apply Permutation_sym, Permutation_nil in P. discriminate.
  - cbn [option_map counts_view total success success_rate].
    now rewrite (Permutation_length P), (count_perm get_success _ _ P).
Qed.

Lemma bucket_recommendation_counts (d : string) (s s' : Stats) :
  counts_view s = counts_view s' ->
  bucket_recommendation d s = bucket_recommendation d s'.
Proof.
  unfold counts_view, bucket_recommendation, rate_of. intros E.
  assert (R : success_rate s = success_rate s') by congruence.
  now rewrite R.
Qed.

Lemma NoDup_keys_by_difficulty (l : list TaskResult) :
  NoDup (keys (by_difficulty
                 (analyze_results {| task_results_key := Some l |}))).
Proof.
  unfold analyze_results. cbn [by_difficulty task_results_key].
  rewrite keys_map_values. apply NoDup_keys_fold_tally. constructor.
Qed.

(** The recommendations: those on the overall rate, which the number of
    records and of successes decide, then those of the buckets. *)
Lemma recommendations_split (l : list TaskResult) :
  exists overall : nat -> nat -> list string,
    recommendations (analyze_results {| task_results_key := Some l |})
    = (overall (length l) (count get_success l) ++
       flat_map (fun item => bucket_recommendation (fst item) (snd item))
         (by_difficulty
            (analyze_results {| task_results_key := Some l |})))%list /\
    forall l',
      recommendations (analyze_results {| task_results_key := Some l' |})
      = (overall (length l') (count get_success l') ++
         flat_map (fun item => bucket_recommendation (fst item) (snd item))
           (by_difficulty
              (analyze_results {| task_results_key := Some l' |})))%list.
Proof.
  eexists (fun n k =>
             let rate := match n with
                         | O => 0%float
                         | _ => truediv k n
                         end in
             if PrimFloat.ltb _ rate then _
             else if PrimFloat.ltb rate _ then _ else _).
  split; [|intros l']; unfold analyze_results;
    cbn [recommendations by_difficulty task_results_key].
  - destruct l; reflexivity.
  - destruct l'; reflexivity.
Qed.

Lemma bucket_recommendations_sub (l l' : list TaskResult) (rec : string) :
  Permutation l l' ->
  In rec (flat_map (fun item => bucket_recommendation (fst item) (snd item))
            (by_difficulty
               (analyze_results {| task_results_key := Some l |}))) ->
  In rec (flat_map (fun item => bucket_recommendation (fst item) (snd item))
            (by_difficulty
               (analyze_results {| task_results_key := Some l' |}))).
Proof.
  intros P H. apply in_flat_map in H. destruct H as [[d s] [Hin Hrec]].
  cbn [fst snd] in Hrec.
  apply (In_get d s _ (NoDup_keys_by_difficulty l)) in Hin.
  pose proof (bucket_counts_perm _ _ (filter_Permutation
                (fun r => get_difficulty r =? d) _ _ P)) as V.
  fold (bucket_of d l) in V. fold (bucket_of d l') in V.
  rewrite <- !by_difficulty_get, Hin in V. cbn [option_map] in V.
  destruct (get d (by_difficulty
                     (analyze_results {| task_results_key := Some l' |})))
    as [s'|] eqn:G; [|discriminate].
  cbn [option_map] in V.
  assert (E : counts_view s = counts_view s') by congruence.
  apply in_flat_map. exists (d, s'). split.
  - now apply (In_get d s' _ (NoDup_keys_by_difficulty l')).
  - cbn [fst snd]. now rewrite <- (bucket_recommendation_counts d s s' E).
Qed.

(** C7, as the code has it.  Reordering the records changes neither the
    buckets of [by_difficulty] nor the total, the successes and the success
    rate of any of them, nor the set of recommendations, nor the totals and
    the success rate of the report.  The average duration of a bucket is
    [sum] of its durations, taken in the order of the input, over their
    number, in binary64. *)
Theorem C7_analysis_up_to_order (l l' : list TaskResult) :
  Permutation l l' ->
  (forall d,
     option_map counts_view
       (get d (by_difficulty
                 (analyze_results {| task_results_key := Some l |})))
     = option_map counts_view
         (get d (by_difficulty
                   (analyze_results {| task_results_key := Some l' |}))))
  /\
  (forall rec,
     In rec (recommendations
               (analyze_results {| task_results_key := Some l |})) <->
     In rec (recommendations
               (analyze_results {| task_results_key := Some l' |}))) /\
  total_tasks (analyze_results {| task_results_key := Some l |})
  = total_tasks (analyze_results {| task_results_key := Some l' |}) /\
  successful_tasks (analyze_results {| task_results_key := Some l |})
  = successful_tasks (analyze_results {| task_results_key := Some l' |}) /\
  overall_success_rate (analyze_results {| task_results_key := Some l |})
  = overall_success_rate
      (analyze_results {| task_results_key := Some l' |}) /\
  (forall d stats,
     get d (by_difficulty
              (analyze_results {| task_results_key := Some l |}))
     = Some stats ->
     avg_duration stats
     = Some (mean (map get_duration (bucket_of d l)))).
Proof.
  intros P.
  assert (L : length l = length l') by now apply Permutation_length.
  assert (C : count get_success l = count get_success l')
    by now apply count_perm.
  split; [|split; [|split; [|split; [|split]]]].
  - intros d. rewrite !by_difficulty_get.
    now apply bucket_counts_perm, filter_Permutation.
  - intros rec.
    destruct (recommendations_split l) as [overall [-> E']].
    rewrite (E' l'), L, C, !in_app_iff.
    split; (intros [H|H]; [now left|right]).
    + now apply (bucket_recommendations_sub l l' rec P).
    + now apply (bucket_recommendations_sub l' l rec (Permutation_sym P)).
  - exact L.
  - exact C.
  - unfold analyze_results.
    cbn [overall_success_rate task_results_key]. rewrite C, L.
    destruct l as [|r l], l' as [|r' l']; try reflexivity.
    + apply Permutation_nil in P. discriminate.
    + apply Permutation_sym, Permutation_nil in P. discriminate.
  - intros d stats. rewrite by_difficulty_get. unfold bucket_stats.
    destruct (bucket_of d l); [discriminate|].
    intros E. inversion E. reflexivity.
Qed.

End Calibrator.

(** * The theorems at sample inputs *)

(** Both automated checks pass and the canary token is in no file: two of
    three outcomes pass, and the status is FAIL. *)
Lemma C8_missing_canary_fails_witness :
  VerifySolution.passed_checks
    (VerifySolution.verify Examples.no_canary_world Examples.canary_task)
  = 2%nat /\
  (exists outcome,
     VerifySolution._check_canary_token
       Examples.no_canary_world Examples.canary_task [] = [outcome] /\
     VerifySolution.required outcome = true /\
     VerifySolution.passed outcome = false) /\
  VerifySolution.all_passed
    (VerifySolution.verify Examples.no_canary_world Examples.canary_task)
  = false /\
  VerifySolution.overall_status
    (VerifySolution.verify Examples.no_canary_world Examples.canary_task)
  = "FAIL".
Proof.
  split; [reflexivity|].
  apply (C8_missing_canary_fails
           Examples.no_canary_world Examples.canary_task
           "DATAFORGE_CANARY_7f3a91").
  - reflexivity.
  - discriminate.
  - apply scan_tree_false. reflexivity.
Defined.

(** The calibration run and the same records in reverse order. *)
Lemma C7_analysis_up_to_order_witness :
  (forall d,
     option_map BenchmarkEvaluation.counts_view
       (PyDict.get d
          (BenchmarkEvaluation.by_difficulty
             (BenchmarkEvaluation.analyze_results
                {| BenchmarkEvaluation.task_results_key :=
                     Some Examples.calibration_run |})))
     = option_map BenchmarkEvaluation.counts_view
         (PyDict.get d
            (BenchmarkEvaluation.by_difficulty
               (BenchmarkEvaluation.analyze_results
                  {| BenchmarkEvaluation.task_results_key :=
                       Some (rev Examples.calibration_run) |})))) /\
  (forall rec,
     In rec (BenchmarkEvaluation.recommendations
               (BenchmarkEvaluation.analyze_results
                  {| BenchmarkEvaluation.task_results_key :=
                       Some Examples.calibration_run |})) <->
     In rec (BenchmarkEvaluation.recommendations
               (BenchmarkEvaluation.analyze_results
                  {| BenchmarkEvaluation.task_results_key :=
                       Some (rev Examples.calibration_run) |}))).
Proof.
  destruct (C7_analysis_up_to_order
              Examples.calibration_run (rev Examples.calibration_run)
              (Permutation_rev Examples.calibration_run))
    as [H1 [H2 _]].
  split; assumption.
Defined.

(** C7 as the spec words it fails on four easy tasks of 2, 3, 1e16 and
    1e-16 seconds: in this order their average duration is
    2500000000000001.0, in the reverse order 2500000000000001.5.  The sum
    is the one of CPython 3.12 and later; the plain sum of the earlier
    versions gives the same two values. *)
#[warnings="-inexact-float"]
Lemma C7_average_duration_counterexample :
  Permutation Examples.uneven_run (rev Examples.uneven_run) /\
  option_map BenchmarkEvaluation.avg_duration
    (PyDict.get "easy"
       (BenchmarkEvaluation.by_difficulty
          (BenchmarkEvaluation.analyze_results
             {| BenchmarkEvaluation.task_results_key :=
                  Some Examples.uneven_run |})))
  = Some (Some 2500000000000001%float) /\
  option_map BenchmarkEvaluation.avg_duration
    (PyDict.get "easy"
       (BenchmarkEvaluation.by_difficulty
          (BenchmarkEvaluation.analyze_results
             {| BenchmarkEvaluation.task_results_key :=
                  Some (rev Examples.uneven_run) |})))
  = Some (Some 2500000000000001.5%float) /\
  PrimFloat.eqb 2500000000000001%float 2500000000000001.5%float = false /\
  (Py.sum_float_plain
     (map BenchmarkEvaluation.get_duration Examples.uneven_run) / 4)%float
  = 2500000000000001%float /\
  (Py.sum_float_plain
     (map BenchmarkEvaluation.get_duration (rev Examples.uneven_run))
   / 4)%float
  = 2500000000000001.5%float.
Proof.
  split; [apply Permutation_rev|]. repeat split; vm_compute; reflexivity.
Qed.

(** The four rows of the table and the missing file, with an engine that
    searches the pattern literally. *)
Lemma C2_run_check_decision_table_witness :
  (exists message,
     VerifyFixes.run_check
       (Examples.literal_world "h = hashlib.md5(pw)")
       (VerifyFixes.new "/repo") Examples.md5_check
     = Py.Ok {| VerifyFixes.check := Examples.md5_check;
                VerifyFixes.result := VerifyFixes.FAIL;
                VerifyFixes.message := message |}) /\
  (exists message,
     VerifyFixes.run_check
       (Examples.literal_world "h = bcrypt.hashpw(pw, salt)")
       (VerifyFixes.new "/repo") Examples.md5_check
     = Py.Ok {| VerifyFixes.check := Examples.md5_check;
                VerifyFixes.result := VerifyFixes.PASS;
                VerifyFixes.message := message |}) /\
  (exists message,
     VerifyFixes.run_check
       (Examples.literal_world "h = argon2.hash(pw)")
       (VerifyFixes.new "/repo") Examples.md5_check
     = Py.Ok {| VerifyFixes.check := Examples.md5_check;
                VerifyFixes.result := VerifyFixes.PASS;
                VerifyFixes.message := message |}) /\
  (exists message,
     VerifyFixes.run_check
       (Examples.literal_world
          "old = hashlib.md5(pw); h = bcrypt.hashpw(pw, salt)")
       (VerifyFixes.new "/repo") Examples.md5_check
     = Py.Ok {| VerifyFixes.check := Examples.md5_check;
                VerifyFixes.result := VerifyFixes.FAIL;
                VerifyFixes.message := message |}) /\
  VerifyFixes.run_check Examples.config_missing_world
    (VerifyFixes.new "/repo") Examples.config_check
  = Py.Ok {| VerifyFixes.check := Examples.config_check;
             VerifyFixes.result := VerifyFixes.SKIP;
             VerifyFixes.message :=
               "File not found: "
               ++ VerifyFixes.file_path Examples.config_check |}.
Proof.
  split; [|split; [|split; [|split]]].
  - apply (proj1 (C2_run_check_decision_table
                    (Examples.literal_world "h = hashlib.md5(pw)")
                    (VerifyFixes.new "/repo") Examples.md5_check)
             "h = hashlib.md5(pw)" true false); reflexivity.
  - apply (proj1 (C2_run_check_decision_table
                    (Examples.literal_world "h = bcrypt.hashpw(pw, salt)")
                    (VerifyFixes.new "/repo") Examples.md5_check)
             "h = bcrypt.hashpw(pw, salt)" false true); reflexivity.
  - apply (proj1 (C2_run_check_decision_table
                    (Examples.literal_world "h = argon2.hash(pw)")
                    (VerifyFixes.new "/repo") Examples.md5_check)
             "h = argon2.hash(pw)" false false); reflexivity.
  - apply (proj1 (C2_run_check_decision_table
                    (Examples.literal_world
                       "old = hashlib.md5(pw); h = bcrypt.hashpw(pw, salt)")
                    (VerifyFixes.new "/repo") Examples.md5_check)
             "old = hashlib.md5(pw); h = bcrypt.hashpw(pw, salt)"
             true true); reflexivity.
  - exact (proj1 (proj2 (proj2 (proj2 (proj2
             (C2_run_check_decision_table Examples.config_missing_world
                (VerifyFixes.new "/repo") Examples.config_check)))))
             "/repo/config.py" eq_refl).
Defined.

(** A check without a vulnerable pattern raises once its file is read;
    the checks of the built-in profile all have one. *)
Lemma C10_run_check_totality_witness :
  (exists msg,
     VerifyFixes.run_check Examples.quiet_world (VerifyFixes.new "/repo")
       Examples.patternless_check
     = Py.Raise (Py.TypeError msg)) /\
  Forall (fun c => VerifyFixes.vulnerable_pattern c <> None)
    VerifyFixes._define_checks.
Proof.
  split.
  - apply (proj1 (proj2 (C10_run_check_totality Examples.quiet_world
                           (VerifyFixes.new "/repo")
                           Examples.patternless_check))
             eq_refl ""). reflexivity.
  - apply (proj1 (proj2 (proj2 (proj2 (proj2
             (C10_run_check_totality Examples.quiet_world
                (VerifyFixes.new "/repo") Examples.patternless_check)))))).
Defined.

(** A token that one file in a sub-directory holds is found. *)
Lemma C6_canary_auditor_witness :
  exists outcome,
    VerifySolution._check_canary_token Examples.no_canary_world
      {| VerifySolution.canary_token := Some "started";
         VerifySolution.automated_checks := [] |} []
    = [outcome] /\
    VerifySolution.required outcome = true /\
    VerifySolution.passed outcome = true.
Proof.
  destruct (proj1 (C6_canary_auditor Examples.no_canary_world
                     {| VerifySolution.canary_token := Some "started";
                        VerifySolution.automated_checks := [] |} [])
              "started" eq_refl)
    as [outcome [E [R [F _]]]]; [discriminate|].
  exists outcome. split; [exact E|]. split; [exact R|].
  apply F. exists ["logs"; "run.log"], "started", "", "".
  split; [|reflexivity].
  apply VerifySolution.reaches_below
    with (sub := VerifySolution.Directory
                   [("run.log",
                     VerifySolution.RegularFile (Py.Ok "started"))]).
  - right. left. reflexivity.
  - apply VerifySolution.reaches_entry. left. reflexivity.
Defined.

(** The order of the recommendations does follow the order of the
    records: only their set is fixed. *)
Example recommendations_order :
  BenchmarkEvaluation.recommendations
    (BenchmarkEvaluation.analyze_results
       {| BenchmarkEvaluation.task_results_key :=
            Some Examples.calibration_run |})
  = [ "Difficulty calibration looks reasonable";
      "Easy tasks are too hard (success rate: 50%)";
      "Hard tasks are too easy (success rate: 100%)" ] /\
  BenchmarkEvaluation.recommendations
    (BenchmarkEvaluation.analyze_results
       {| BenchmarkEvaluation.task_results_key :=
            Some (rev Examples.calibration_run) |})
  = [ "Difficulty calibration looks reasonable";
      "Hard tasks are too easy (success rate: 100%)";
      "Easy tasks are too hard (success rate: 50%)" ].
Proof. split; vm_compute; reflexivity. Qed.

(** C2 as the spec words it fails for a check that names no vulnerable
    pattern: its file is there and is read, and [run_check] raises instead
    of returning a verdict. *)
Lemma C2_patternless_counterexample :
  VerifyFixes._read_file Examples.quiet_world (VerifyFixes.new "/repo")
    (VerifyFixes.file_path Examples.patternless_check)
  = Py.Ok (Some "") /\
  VerifyFixes.fixed_pattern Examples.patternless_check = Some "Reporting" /\
  VerifyFixes.run_check Examples.quiet_world (VerifyFixes.new "/repo")
    Examples.patternless_check
  = Py.Raise
      (Py.TypeError "first argument must be string or compiled pattern").
Proof. repeat split. Qed.

(** * Further properties of the three programs *)

Section MoreOnTheExecutor.
Import Py VerifySolution.

Variable w : World.

Ltac run_check_body :=
  unfold _execute_check, execute_body;
  cbn [String.eqb Ascii.eqb Bool.eqb];
  unfold try_except, bind, call, ret, set_passed, set_message, get_passed;
  cbn [fst snd passed message required name description].

(** A check type that is none of the four known ones gives a failed
    outcome with the message "Unknown check type: ...". *)
Theorem unknown_check_type (check_type target expected : string) :
  check_type <> "file_exists" ->
  check_type <> "output_contains" ->
  check_type <> "content_contains" ->
  check_type <> "regex_match" ->
  passed (_execute_check w check_type target expected) = false /\
  message (_execute_check w check_type target expected)
  = "Unknown check type: " ++ check_type.
Proof.
  intros N1 N2 N3 N4.
  apply String.eqb_neq in N1, N2, N3, N4.
  unfold _execute_check, execute_body. rewrite N1, N2, N3, N4.
  split; reflexivity.
Qed.

(** No outcome of an automated check is required: the executor
    stores [required = False] and never reads a flag of the check.  So
    without a canary token nothing is required, and the status is PASS
    exactly when the percentage is at least 70. *)
Theorem automated_checks_are_optional (task : TaskYaml) :
  Forall (fun r => required r = false) (_run_automated_checks w task []) /\
  (canary_token task = None ->
   required_total (verify w task) = 0%nat /\
   all_passed (verify w task) = true /\
   (overall_status (verify w task) = "PASS" <->
    (70 <= auto_score (_run_automated_checks w task []))%Q)).
Proof.
  assert (F : Forall (fun r => required r = false)
                (_run_automated_checks w task [])).
  { rewrite run_automated_checks_app. cbn [app].
    apply Forall_forall. intros r Hr. apply in_map_iff in Hr.
    destruct Hr as [c [<- _]]. apply execute_check_not_required. }
  split; [exact F|]. intros E.
  assert (R : count required (_run_automated_checks w task []) = 0%nat).
  { apply count_none. now apply Forall_forall. }
  assert (K : _check_canary_token w task [] = [])
    by (unfold _check_canary_token; now rewrite E).
  assert (A : all_required_passed (_run_automated_checks w task []) = true)
    by (unfold all_required_passed; now rewrite R).
  unfold verify. rewrite K.
  split; [exact R|]. split; [exact A|].
  rewrite overall_status_PASS, A. tauto.
Qed.

(** A [content_contains] check reads the file of the target and
    passes exactly when [expected] occurs in its text, letter case
    included; a missing file and a read that fails give a failed
    outcome. *)
Theorem content_contains_check (target expected : string) :
  (path_exists w (resolve w target) = false ->
   passed (_execute_check w "content_contains" target expected) = false /\
   message (_execute_check w "content_contains" target expected)
   = "File " ++ target ++ " not found") /\
  (forall text,
     path_exists w (resolve w target) = true ->
     read_text w (resolve w target) = Ok text ->
     passed (_execute_check w "content_contains" target expected)
     = contains expected text) /\
  (forall e,
     path_exists w (resolve w target) = true ->
     read_text w (resolve w target) = Raise e ->
     passed (_execute_check w "content_contains" target expected) = false /\
     message (_execute_check w "content_contains" target expected)
     = "Error: " ++ exc_str e).
Proof.
  split; [|split].
  - intros P. run_check_body. rewrite P. split; reflexivity.
  - intros text P T. run_check_body. rewrite P. cbn [fst snd].
    rewrite T. reflexivity.
  - intros e P T. run_check_body. rewrite P. cbn [fst snd].
    rewrite T. split; reflexivity.
Qed.

(** A [regex_match] check passes exactly when the engine finds
    [expected] in the text of the file; a pattern the engine rejects
    gives a failed outcome with the message "Error: ...". *)
Theorem regex_match_check (target expected : string) :
  (forall text found,
     path_exists w (resolve w target) = true ->
     read_text w (resolve w target) = Ok text ->
     re_search w expected text = Ok found ->
     passed (_execute_check w "regex_match" target expected) = found) /\
  (forall text e,
     path_exists w (resolve w target) = true ->
     read_text w (resolve w target) = Ok text ->
     re_search w expected text = Raise e ->
     passed (_execute_check w "regex_match" target expected) = false /\
     message (_execute_check w "regex_match" target expected)
     = "Error: " ++ exc_str e).
Proof.
  split.
  - intros text found P T S. run_check_body. rewrite P. cbn [fst snd].
    rewrite T. cbn [fst snd]. rewrite S. reflexivity.
  - intros text e P T S. run_check_body. rewrite P. cbn [fst snd].
    rewrite T. cbn [fst snd]. rewrite S. split; reflexivity.
Qed.

End MoreOnTheExecutor.

(** One required outcome that passed and one optional outcome that
    failed: 50 percent, one required check of one passed, and the status
    FAIL. *)
Theorem scenario_half_passed :
  (VerifySolution.auto_score Examples.half_passed == 50)%Q /\
  (VerifySolution.score_percentage
     (VerifySolution._calculate_score Examples.half_passed) == 50)%Q /\
  VerifySolution.required_total
    (VerifySolution._calculate_score Examples.half_passed) = 1%nat /\
  VerifySolution.required_passed
    (VerifySolution._calculate_score Examples.half_passed) = 1%nat /\
  VerifySolution.all_passed
    (VerifySolution._calculate_score Examples.half_passed) = true /\
  VerifySolution.overall_status
    (VerifySolution._calculate_score Examples.half_passed) = "FAIL".
Proof. repeat split. Qed.

Lemma unknown_check_type_witness :
  VerifySolution.passed
    (VerifySolution._execute_check Examples.empty_world
       "json_valid" "out.json" "true") = false /\
  VerifySolution.message
    (VerifySolution._execute_check Examples.empty_world
       "json_valid" "out.json" "true")
  = "Unknown check type: json_valid".
Proof.
  apply (unknown_check_type Examples.empty_world
           "json_valid" "out.json" "true"); discriminate.
Defined.

(** Ten easy tasks of which nine succeeded: the success rate 0.9 is
    above 0.8, so the tasks are reported as too easy, and it is not below
    0.7, so the easy bucket is not flagged. *)
Theorem scenario_nine_of_ten_easy :
  BenchmarkEvaluation.recommendations
    (BenchmarkEvaluation.analyze_results
       {| BenchmarkEvaluation.task_results_key :=
            Some Examples.nine_of_ten_easy |})
  = [ "Tasks are too easy - increase difficulty factors";
      "Consider adding more traps and edge cases" ] /\
  option_map BenchmarkEvaluation.counts_view
    (PyDict.get "easy"
       (BenchmarkEvaluation.by_difficulty
          (BenchmarkEvaluation.analyze_results
             {| BenchmarkEvaluation.task_results_key :=
                  Some Examples.nine_of_ten_easy |})))
  = Some (10%nat, 9%nat, Some (Py.truediv 9 10)).
Proof. split; vm_compute; reflexivity. Qed.

(** * Further properties: the score of verify_solution.py *)

Section ScoreInvariants.
Import Py VerifySolution.

Lemma count_le_length {A : Type} (p : A -> bool) (xs : list A) :
  (count p xs <= length xs)%nat.
Proof.
  unfold count. induction xs as [|x xs IH]; simpl; [lia|].
  destruct (p x); simpl; lia.
Qed.

Lemma auto_score_bounds (results : list CheckResult) :
  (0 <= auto_score results /\ auto_score results <= 100)%Q.
Proof.
  unfold auto_score. destruct (0 <? length results)%nat eqn:E.
  - apply Nat.ltb_lt in E.
    apply div_nat_bounds; [apply count_le_length|exact E].
  - split; [apply Qle_refl|]. unfold Qle. simpl. lia.
Qed.

Lemma overall_status_cases (results : list CheckResult) :
  overall_status (_calculate_score results) = "PASS" \/
  overall_status (_calculate_score results) = "FAIL".
Proof.
  unfold _calculate_score; cbn [overall_status].
  destruct (Qle_bool 70 (auto_score results)
            && all_required_passed results); auto.
Qed.

(** The counts of the summary add up, the required outcomes are among
    all outcomes, the percentage (rounded or not) lies between 0 and 100,
    and a run that passes has at least one passed check. *)
Theorem score_invariants (results : list CheckResult) :
  total (_calculate_score results)
  = (passed_checks (_calculate_score results)
     + failed (_calculate_score results))%nat /\
  (required_passed (_calculate_score results)
   <= required_total (_calculate_score results))%nat /\
  (required_total (_calculate_score results)
   <= total (_calculate_score results))%nat /\
  (0 <= auto_score results /\ auto_score results <= 100)%Q /\
  (0 <= score_percentage (_calculate_score results) /\
   score_percentage (_calculate_score results) <= 100)%Q /\
  (overall_status (_calculate_score results) = "PASS" ->
   (0 < passed_checks (_calculate_score results))%nat) /\
  details (_calculate_score results) = results.
Proof.
  cbn [_calculate_score total passed_checks failed required_passed
       required_total score_percentage details].
  pose proof (count_le_length passed results) as P.
  pose proof (auto_score_bounds results) as [L U].
  split; [lia|]. split; [apply count_and_le|].
  split; [apply count_le_length|]. split; [split; assumption|].
  split; [exact (round1_bounds (auto_score results) 0 100 L U)|].
  split; [|reflexivity].
  intros S. apply overall_status_PASS in S. destruct S as [S _].
  apply auto_score_ge_70 in S. lia.
Qed.

(** The summary does not depend on the order of the outcomes, apart from
    the list of details it carries. *)
Theorem score_order_independent (results results' : list CheckResult) :
  Permutation results results' ->
  total (_calculate_score results) = total (_calculate_score results') /\
  passed_checks (_calculate_score results)
  = passed_checks (_calculate_score results') /\
  failed (_calculate_score results) = failed (_calculate_score results') /\
  score_percentage (_calculate_score results)
  = score_percentage (_calculate_score results') /\
  required_total (_calculate_score results)
  = required_total (_calculate_score results') /\
  required_passed (_calculate_score results)
  = required_passed (_calculate_score results') /\
  all_passed (_calculate_score results)
  = all_passed (_calculate_score results') /\
  overall_status (_calculate_score results)
  = overall_status (_calculate_score results').
Proof.
  intros P.
  assert (L : length results = length results')
    by now apply Permutation_length.
  assert (C1 : count passed results = count passed results')
    by now apply count_perm.
  assert (C2 : count required results = count required results')
    by now apply count_perm.
  assert (C3 : count (fun r => required r && passed r) results
               = count (fun r => required r && passed r) results')
    by now apply count_perm.
  assert (A : auto_score results = auto_score results')
    by (unfold auto_score; now rewrite L, C1).
  assert (R : all_required_passed results = all_required_passed results')
    by (unfold all_required_passed; now rewrite C2, C3).
  unfold _calculate_score.
  cbn [total passed_checks failed score_percentage required_total
       required_passed all_passed overall_status].
  rewrite L, C1, C2, C3, A, R. repeat split.
Qed.

(** One more passed outcome never turns PASS into FAIL, and one more
    failed outcome never turns FAIL into PASS. *)
Theorem score_one_more_outcome (results : list CheckResult)
    (r : CheckResult) :
  (passed r = true ->
   overall_status (_calculate_score results) = "PASS" ->
   overall_status (_calculate_score (results ++ [r])%list) = "PASS") /\
  (passed r = false ->
   overall_status (_calculate_score results) = "FAIL" ->
   overall_status (_calculate_score (results ++ [r])%list) = "FAIL").
Proof.
  assert (Len : length (results ++ [r])%list = S (length results))
    by (rewrite length_app; simpl; lia).
  assert (Cnt : count passed (results ++ [r])%list
                = (count passed results
                   + if passed r then 1 else 0)%nat).
  { rewrite count_app. unfold count at 2. simpl.
    now destruct (passed r). }
  split.
  - intros Pr S. apply overall_status_PASS in S. destruct S as [S A].
    apply overall_status_PASS. split.
    + apply auto_score_ge_70 in S. apply auto_score_ge_70.
      rewrite Len, Cnt, Pr. lia.
    + apply all_required_passed_iff. intros x Hx Rx.
      apply in_app_or in Hx. destruct Hx as [Hx|[<-|[]]]; [|exact Pr].
      now apply (proj1 (all_required_passed_iff results) A).
  - intros Pr S.
    destruct (overall_status (_calculate_score (results ++ [r])%list)
              =? "PASS") eqn:E.
    + exfalso. apply String.eqb_eq in E.
      apply overall_status_PASS in E. destruct E as [E A].
      assert (overall_status (_calculate_score results) = "PASS");
        [|congruence].
      apply overall_status_PASS. split.
      * apply auto_score_ge_70 in E. apply auto_score_ge_70.
        rewrite Len, Cnt, Pr in E.
        pose proof (count_le_length passed results). lia.
      * apply all_required_passed_iff. intros x Hx Rx.
        apply (proj1 (all_required_passed_iff _) A); [|exact Rx].
        apply in_or_app. now left.
    + apply String.eqb_neq in E.
      destruct (overall_status_cases (results ++ [r])%list) as [F|F];
        [contradiction|exact F].
Qed.

End ScoreInvariants.

(** * Further properties: the executor of verify_solution.py *)

Section ExecutorFrame.
Import Py VerifySolution.

Lemma keeps_name_bind {A B : Type} (m : M A) (k : A -> M B) :
  keeps_name m -> (forall a, keeps_name (k a)) -> keeps_name (bind m k).
Proof.
  intros Hm Hk r. unfold bind. specialize (Hm r).
  destruct (m r) as [[a|e] r']; cbn [snd] in *.
  - destruct (Hk a r') as [N D]. destruct Hm as [N' D'].
    split; congruence.
  - assumption.
Qed.

Lemma keeps_name_try_except {A : Type} (m : M A) (h : exception -> M A) :
  keeps_name m -> (forall e, keeps_name (h e)) ->
  keeps_name (try_except m h).
Proof.
  intros Hm Hh r. unfold try_except. specialize (Hm r).
  destruct (m r) as [[a|e] r']; cbn [snd] in *.
  - assumption.
  - destruct (Hh e r') as [N D]. destruct Hm as [N' D'].
    split; congruence.
Qed.

Ltac keeps_names :=
  repeat first
    [ apply keeps_name_bind; [|intros ?]
    | apply keeps_name_try_except; [|intros ?]
    | match goal with
      | |- keeps_name (if ?b then _ else _) => destruct b
      | |- keeps_name (match ?x with _ => _ end) => destruct x
      end
    | intros ?; split; reflexivity ].

Lemma execute_body_keeps_name (w : World)
    (check_type target expected : string) :
  keeps_name (execute_body w check_type target expected).
Proof. unfold execute_body. keeps_names. Qed.

(** Every outcome of the executor is named after the type of the check
    and the first 20 characters of its target. *)
Lemma execute_check_name (w : World) (check_type target expected : string) :
  name (_execute_check w check_type target expected)
  = check_type ++ "_" ++ slice_to 20 target /\
  description (_execute_check w check_type target expected)
  = check_type ++ " check for " ++ target.
Proof.
  unfold _execute_check.
  destruct (keeps_name_try_except
              (execute_body w check_type target expected)
              (fun e => set_message ("Error: " ++ exc_str e))
              (execute_body_keeps_name w check_type target expected)
              (fun e r => conj eq_refl eq_refl)
              {| name := check_type ++ "_" ++ slice_to 20 target;
                 description := check_type ++ " check for " ++ target;
                 passed := false; required := false; message := "" |})
    as [N D].
  split; assumption.
Qed.

(** The outcomes of [verify]: the canary outcome first when a token is
    declared, then one outcome for each automated check, in the order of
    task.yaml, each named after its check. *)
Theorem verify_outcomes (w : World) (task : TaskYaml) :
  details (verify w task)
  = (_check_canary_token w task [] ++
     map (fun c => _execute_check w (check_type c) (target c) (expected c))
       (automated_checks task))%list /\
  total (verify w task)
  = ((if canary_declared task then 1 else 0)
     + length (automated_checks task))%nat /\
  map name (details (verify w task))
  = ((if canary_declared task then ["canary_token"] else []) ++
     map (fun c => (check_type c ++ "_" ++ slice_to 20 (target c))%string)
       (automated_checks task))%list /\
  required_total (verify w task)
  = (if canary_declared task then 1 else 0)%nat.
Proof.
  assert (D : details (verify w task)
              = (_check_canary_token w task [] ++
                 map (fun c => _execute_check w (check_type c) (target c)
                                              (expected c))
                   (automated_checks task))%list).
  { unfold verify. cbn [details _calculate_score].
    apply run_automated_checks_app. }
  assert (K : _check_canary_token w task []
              = if canary_declared task
                then [ {| name := "canary_token";
                          description := "Canary token present in solution";
                          passed := scan_files
                                      (match canary_token task with
                                       | Some c => c | None => "" end)
                                      (rglob (solution_tree w));
                          required := true;
                          message :=
                            "Canary '"
                            ++ slice_to 30
                                 (match canary_token task with
                                  | Some c => c | None => "" end)
                            ++ "...' "
                            ++ (if scan_files
                                     (match canary_token task with
                                      | Some c => c | None => "" end)
                                     (rglob (solution_tree w))
                                then "found" else "NOT FOUND") |} ]
                else []).
  { unfold _check_canary_token, canary_declared.
    destruct (canary_token task) as [c|]; [|reflexivity].
    destruct (truthy c); reflexivity. }
  split; [exact D|].
  assert (T : total (verify w task) = length (details (verify w task)))
    by reflexivity.
  split; [|split].
  - rewrite T, D, length_app, length_map, K.
    now destruct (canary_declared task).
  - rewrite D, map_app, map_map, K. f_equal.
    + now destruct (canary_declared task).
    + apply map_ext. intros c. apply execute_check_name.
  - unfold verify. cbn [required_total _calculate_score].
    rewrite run_automated_checks_app, count_app, K.
    rewrite (count_none required (map _ _)).
    + now destruct (canary_declared task).
    + intros r Hr. apply in_map_iff in Hr. destruct Hr as [c [<- _]].
      apply execute_check_not_required.
Qed.

(** The shell is run for an [output_contains] check whose target looks
    like a command, and for no other check: with any other shell the
    outcome is the same. *)
Theorem shell_only_for_commands (w : World)
    (run : string -> nat -> string -> Result (string * string))
    (check_type target expected : string) :
  check_type <> "output_contains" \/ looks_like_command target = false ->
  _execute_check (with_shell w run) check_type target expected
  = _execute_check w check_type target expected.
Proof.
  intros H. unfold _execute_check, execute_body.
  destruct (check_type =? "file_exists"); [reflexivity|].
  destruct (check_type =? "output_contains") eqn:E; [|reflexivity].
  apply String.eqb_eq in E. destruct H as [H|H]; [contradiction|].
  rewrite H. reflexivity.
Qed.

(** When the target looks like a command and the shell returns, the
    outcome is decided on what the command printed, standard error
    included: it passes when that text is not empty and, lowered by
    [str.lower()], holds the lowered [expected].  The exit status plays no
    part and no file is read. *)
Theorem command_output_decides (w : World)
    (target expected out err : string) :
  looks_like_command target = true ->
  subprocess_run w target 10 (solution_dir w) = Ok (out, err) ->
  passed (_execute_check w "output_contains" target expected)
  = truthy (out ++ err)
    && contains (str_lower w expected) (str_lower w (out ++ err))
  /\
  forall exists_ read,
    _execute_check (with_files w exists_ read)
      "output_contains" target expected
    = _execute_check w "output_contains" target expected.
Proof.
  intros L R. split.
  - apply (output_contains_from_command w target expected out err L R).
  - intros exists_ read. unfold _execute_check, execute_body.
    cbn [String.eqb Ascii.eqb Bool.eqb]. rewrite L.
    unfold try_except, bind, call, ret.
    cbn [with_files subprocess_run solution_dir]. rewrite R. reflexivity.
Qed.

(** An [output_contains] check reads [expected] through [str.lower()]
    only: two expected texts with the same lowered text give the same
    verdict. *)
Theorem expected_case_insensitive (w : World) (target e1 e2 : string) :
  str_lower w e1 = str_lower w e2 ->
  passed (_execute_check w "output_contains" target e1)
  = passed (_execute_check w "output_contains" target e2).
Proof.
  intros E.
  unfold _execute_check, execute_body.
  cbn [String.eqb Ascii.eqb Bool.eqb].
  unfold try_except, bind, call, ret, set_passed, set_message, get_passed.
  rewrite E.
  destruct (looks_like_command target);
    try destruct (subprocess_run w target 10 (solution_dir w))
      as [[out err]|[]];
    cbn [fst snd passed message];
    destruct (path_exists w (resolve w target));
    cbn [fst snd passed message];
    try destruct (read_text w (resolve w target)) as [text|exn];
    cbn [fst snd passed message];
    repeat match goal with
           | |- context [truthy ?c] =>
               destruct (truthy c); cbn [fst snd passed message]
           end;
    reflexivity.
Qed.

End ExecutorFrame.

(** * Further properties: what a verdict of verify_solution.py guarantees *)

Section Verdict.
Import Py VerifySolution.

(** A PASS of [verify] guarantees that a declared canary token stands in
    a file below the solution root that could be read, that at least 70
    percent of the outcomes passed, and that there was an outcome at
    all. *)
Theorem pass_guarantees (w : World) (task : TaskYaml) :
  overall_status (verify w task) = "PASS" ->
  (forall canary,
     canary_token task = Some canary -> canary <> "" ->
     exists path content pre post,
       reaches (solution_tree w) path (RegularFile (Ok content)) /\
       content = pre ++ canary ++ post) /\
  (1 <= passed_checks (verify w task))%nat /\
  (7 * total (verify w task) <= 10 * passed_checks (verify w task))%nat.
Proof.
  unfold verify. cbn zeta. intros H.
  apply overall_status_PASS in H. destruct H as [S R].
  apply auto_score_ge_70 in S. destruct S as [S1 S2].
  split; [|cbn [passed_checks total _calculate_score]; split; lia].
  intros canary E N.
  rewrite all_required_passed_iff in R.
  rewrite run_automated_checks_app in R.
  rewrite (check_canary_token_declared w task [] canary E N) in R.
  cbn [app] in R.
  specialize (R _ (or_introl eq_refl) eq_refl). cbn [passed] in R.
  apply scan_tree_true in R. destruct R as [path [content [Hr C]]].
  apply contains_app in C. destruct C as [pre [post C]].
  now exists path, content, pre, post.
Qed.

End Verdict.

(** * Further properties: a whole run of verify_fixes.py *)

Section FixReport.
Import Py VerifyFixes SpecWords.

(** The percentage reaches the integer [k] exactly when the points
    earned reach [k - 1/20] percent of the total: a tie of the rounding
    to one decimal goes to the even digit, which a multiple of ten is. *)
Lemma percentage_ge (e t k : Z) :
  (0 < t)%Z ->
  (Qle_bool (inject_Z k) (round1 (inject_Z e / inject_Z t * 100)) = true <->
   ((20 * k - 1) * t <= 2000 * e)%Z).
Proof.
  intros Ht. rewrite Qle_bool_iff. unfold round1.
  assert (S1 : forall r : Z,
             (inject_Z k <= inject_Z r / 10)%Q <-> (10 * k <= r)%Z).
  { intros r. rewrite <- inject_Z_le, inject_Z_mult.
    change (inject_Z 10) with 10%Q. split; intros H.
    - apply (Qmult_le_r _ _ 10) in H; [|reflexivity].
      assert (inject_Z r / 10 * 10 == inject_Z r)%Q by field. lra.
    - apply Qle_shift_div_l; [reflexivity|]. lra. }
  rewrite S1.
  rewrite round_half_even_ge_even by (rewrite Z.even_mul; reflexivity).
  remember (10 * k)%Z as m eqn:Em.
  destruct t as [|p|p]; try lia.
  unfold Qle, Qminus, Qplus, Qopp, Qmult, Qdiv, Qinv, inject_Z.
  cbn -[Z.mul Z.add Z.sub Z.opp Pos.mul].
  split; intros H; lia.
Qed.

Lemma score_percentage_ge (self : SecurityVerifier) (k : Z) :
  (0 < k)%Z ->
  (Qle_bool (inject_Z k) (percentage (calculate_score self)) = true <->
   (0 < points_total (calculate_score self))%Z /\
   ((20 * k - 1) * points_total (calculate_score self)
    <= 2000 * points_earned (calculate_score self))%Z).
Proof.
  intros Hk. unfold calculate_score.
  cbn [percentage points_total points_earned].
  destruct (0 <? sumZ (map points (checks self)))%Z eqn:E.
  - apply Z.ltb_lt in E. rewrite (percentage_ge _ _ k E). tauto.
  - apply Z.ltb_ge in E. split; [|lia].
    rewrite Qle_bool_iff. change 0%Q with (inject_Z 0).
    rewrite inject_Z_le. lia.
Qed.

Lemma sumZ_perm (xs ys : list Z) : Permutation xs ys -> sumZ xs = sumZ ys.
Proof.
  induction 1 as [|x xs ys P IH|x y xs|xs ys zs P1 IH1 P2 IH2].
  - reflexivity.
  - rewrite !sumZ_cons. lia.
  - rewrite !sumZ_cons. lia.
  - congruence.
Qed.

Lemma sumZ_nonneg (xs : list Z) :
  Forall (fun x => 0 <= x)%Z xs -> (0 <= sumZ xs)%Z.
Proof.
  induction 1 as [|x xs Hx H IH]; [reflexivity|].
  rewrite sumZ_cons. lia.
Qed.

Lemma points_with_nonneg (r : CheckResult) (os : list CheckOutcome) :
  Forall (fun c => 0 <= points c)%Z (map check os) ->
  (0 <= points_with r os)%Z.
Proof.
  intros F. unfold points_with. apply sumZ_nonneg.
  rewrite Forall_forall in *. intros x Hx.
  apply in_map_iff in Hx. destruct Hx as [o [<- Ho]].
  apply filter_In in Ho. apply F. apply in_map. tauto.
Qed.

(** An outcome that is not PASS keeps its points out of the points
    earned. *)
Lemma earned_without (os : list CheckOutcome) (o : CheckOutcome) :
  Forall (fun c => 0 <= points c)%Z (map check os) ->
  In o os -> is_result PASS o = false ->
  (points_with PASS os + points (check o)
   <= sumZ (map (fun o => points (check o)) os))%Z.
Proof.
  intros F Hin Hr. induction os as [|o' os IH]; [contradiction|].
  cbn [map] in F. inversion F as [|? ? P0 F']; subst.
  pose proof (points_with_nonneg PASS os F') as N.
  assert (B : (points_with PASS os
               <= sumZ (map (fun o => points (check o)) os))%Z).
  { rewrite points_by_result.
    pose proof (points_with_nonneg FAIL os F').
    pose proof (points_with_nonneg SKIP os F'). lia. }
  unfold points_with in *. cbn [filter map]. rewrite sumZ_cons.
  destruct Hin as [->|Hin].
  - rewrite Hr. lia.
  - specialize (IH F' Hin).
    destruct (is_result PASS o'); cbn [map]; rewrite ?sumZ_cons; lia.
Qed.

Lemma all_pass_earned (os : list CheckOutcome) :
  forallb (is_result PASS) os = true ->
  points_with PASS os = sumZ (map (fun o => points (check o)) os).
Proof.
  intros H. unfold points_with. f_equal. f_equal.
  induction os as [|o os IH]; [reflexivity|].
  cbn [forallb] in H. apply andb_true_iff in H. destruct H as [H1 H2].
  cbn [filter]. rewrite H1. f_equal. now apply IH.
Qed.

Lemma forallb_false_In {A : Type} (p : A -> bool) (xs : list A) :
  forallb p xs = false -> exists x, In x xs /\ p x = false.
Proof.
  induction xs as [|x xs IH]; cbn [forallb]; [discriminate|].
  destruct (p x) eqn:E.
  - intros H. destruct (IH H) as [y [Hy Py]]. exists y. split; [now right|].
    assumption.
  - intros _. exists x. split; [now left|assumption].
Qed.

Lemma run_all_checks_outcomes (w : World) (self after : SecurityVerifier) :
  run_all_checks w self = Ok after ->
  checks after = checks self /\
  run_each w self (checks self) = Ok (outcomes after) /\
  map check (outcomes after) = checks self.
Proof.
  unfold run_all_checks.
  destruct (run_each w self (checks self)) as [os|e] eqn:E; cbn [bindR];
    [|discriminate].
  intros H. inversion H; subst. cbn [checks outcomes].
  split; [reflexivity|]. split; [reflexivity|].
  now apply run_each_checks with w self.
Qed.

(** The outcomes of the three results make up all outcomes. *)
Lemma counts_by_result (os : list CheckOutcome) :
  (count (is_result PASS) os + count (is_result FAIL) os
   + count (is_result SKIP) os = length os)%nat.
Proof.
  unfold count. induction os as [|o os IH]; [reflexivity|].
  cbn [filter]. destruct o as [c [] m]; cbn [is_result result length];
    lia.
Qed.

(** [run_check] gives SKIP exactly for a file that cannot be read. *)
Lemma run_check_skip (w : World) (self : SecurityVerifier)
    (c : VulnerabilityCheck) (o : CheckOutcome) :
  run_check w self c = Ok o ->
  is_result SKIP o
  = match _read_file w self (file_path c) with
    | Ok None => true
    | _ => false
    end.
Proof.
  unfold run_check.
  destruct (_read_file w self (file_path c)) as [[content|]|e];
    cbn [bindR]; [| |discriminate].
  - destruct (has_vulnerability w content c) as [v|e]; cbn [bindR];
      [|discriminate].
    destruct (has_fix w content c) as [f|e]; cbn [bindR]; [|discriminate].
    destruct v, f; cbn; intros H; inversion H; reflexivity.
  - intros H. inversion H. reflexivity.
Qed.

Lemma run_each_skipped (w : World) (self : SecurityVerifier)
    (cs : list VulnerabilityCheck) (os : list CheckOutcome) :
  run_each w self cs = Ok os ->
  count (is_result SKIP) os
  = count (fun c => match _read_file w self (file_path c) with
                    | Ok None => true
                    | _ => false
                    end) cs.
Proof.
  revert os. induction cs as [|c cs IH]; intros os; cbn [run_each].
  - intros H. now inversion H.
  - destruct (run_check w self c) as [o|e] eqn:R; cbn [bindR];
      [|discriminate].
    destruct (run_each w self cs) as [os'|e] eqn:E; cbn [bindR];
      [|discriminate].
    intros H. inversion H; subst. unfold count in *. cbn [filter].
    rewrite (run_check_skip w self c o R).
    specialize (IH os' eq_refl).
    destruct (_read_file w self (file_path c)) as [[content|]|e];
      cbn [length]; now rewrite ?IH.
Qed.

Lemma ratio_bounds (e t : Z) :
  (0 <= e <= t)%Z -> (0 < t)%Z ->
  (inject_Z 0 <= inject_Z e / inject_Z t * 100 /\
   inject_Z e / inject_Z t * 100 <= inject_Z 100)%Q.
Proof.
  intros He Ht.
  assert (Pt : (0 < inject_Z t)%Q)
    by (change 0%Q with (inject_Z 0); now apply inject_Z_lt).
  assert (Pe : (0 <= inject_Z e)%Q)
    by (change 0%Q with (inject_Z 0); apply inject_Z_le; lia).
  assert (Pet : (inject_Z e <= inject_Z t)%Q) by (apply inject_Z_le; lia).
  assert (L : (0 <= inject_Z e / inject_Z t)%Q)
    by (apply Qle_shift_div_l; [exact Pt|]; lra).
  assert (U : (inject_Z e / inject_Z t <= 1)%Q)
    by (apply Qle_shift_div_r; [exact Pt|]; lra).
  change (inject_Z 0) with 0%Q. change (inject_Z 100) with 100%Q. lra.
Qed.

(** After a run that returned, every check is counted under one of the
    three results; the skipped ones are those whose file could not be
    read; and with points that are not negative the points earned lie
    between 0 and the total, the percentage between 0 and 100. *)
Theorem score_after_run (w : World) (self after : SecurityVerifier) :
  run_all_checks w self = Ok after ->
  (passed (calculate_score after) + failed (calculate_score after)
   + skipped (calculate_score after)
   = total_checks (calculate_score after))%nat /\
  skipped (calculate_score after)
  = count (fun c => match _read_file w self (file_path c) with
                    | Ok None => true
                    | _ => false
                    end) (checks self) /\
  (Forall (fun c => 0 <= points c)%Z (checks self) ->
   (0 <= points_earned (calculate_score after)
    <= points_total (calculate_score after))%Z /\
   (0 <= percentage (calculate_score after))%Q /\
   (percentage (calculate_score after) <= 100)%Q).
Proof.
  intros R. destruct (run_all_checks_outcomes w self after R)
    as [C [E M]].
  unfold calculate_score.
  cbn [passed failed skipped total_checks points_earned points_total
       percentage].
  split; [|split].
  - rewrite counts_by_result, C, <- M. symmetry. apply length_map.
  - now apply run_each_skipped.
  - intros F.
    assert (B : (0 <= points_with PASS (outcomes after)
                 <= sumZ (map points (checks after)))%Z).
    { rewrite C. rewrite <- M in F. rewrite <- M, map_map.
      rewrite points_by_result.
      pose proof (points_with_nonneg PASS _ F).
      pose proof (points_with_nonneg FAIL _ F).
      pose proof (points_with_nonneg SKIP _ F). lia. }
    fold (points_with PASS (outcomes after)).
    split; [exact B|].
    destruct (0 <? sumZ (map points (checks after)))%Z eqn:T.
    + apply Z.ltb_lt in T.
      destruct (ratio_bounds _ _ B T) as [L U].
      destruct (round1_bounds _ 0 100 L U) as [L' U']. split; assumption.
    + split; [apply Qle_refl|]. unfold Qle. simpl. lia.
Qed.

(** The comprehension of [run_all_checks] stops at the first check whose
    [run_check] raises, and the run raises that exception. *)
Theorem run_all_checks_raises (w : World) (self : SecurityVerifier)
    (e : exception) :
  run_all_checks w self = Raise e <->
  exists cs1 c cs2,
    checks self = (cs1 ++ c :: cs2)%list /\
    (forall c', In c' cs1 -> exists o, run_check w self c' = Ok o) /\
    run_check w self c = Raise e.
Proof.
  assert (G1 : forall cs,
             run_each w self cs = Raise e ->
             exists cs1 c cs2,
               cs = (cs1 ++ c :: cs2)%list /\
               (forall c', In c' cs1 ->
                           exists o, run_check w self c' = Ok o) /\
               run_check w self c = Raise e).
  { induction cs as [|c cs IH]; cbn [run_each]; [discriminate|].
    destruct (run_check w self c) as [o|e'] eqn:R; cbn [bindR].
    - destruct (run_each w self cs) as [os|e''] eqn:E; cbn [bindR];
        [discriminate|].
      intros H. inversion H; subst.
      destruct (IH eq_refl) as [cs1 [c0 [cs2 [H0 [H1 H2]]]]].
      exists (c :: cs1), c0, cs2. subst cs.
      split; [reflexivity|]. split; [|assumption].
      intros c' [<-|Hc]; [now exists o|now apply H1].
    - intros H. inversion H; subst. exists [], c, cs.
      split; [reflexivity|]. split; [intros ? []|assumption]. }
  assert (G2 : forall cs1 c cs2,
             (forall c', In c' cs1 ->
                         exists o, run_check w self c' = Ok o) ->
             run_check w self c = Raise e ->
             run_each w self (cs1 ++ c :: cs2) = Raise e).
  { induction cs1 as [|c1 cs1 IH]; intros c cs2 H1 H2;
      cbn [app run_each].
    - now rewrite H2.
    - destruct (H1 c1 (or_introl eq_refl)) as [o Ho]. rewrite Ho.
      cbn [bindR]. rewrite IH; [reflexivity| |assumption].
      intros c' Hc. apply H1. now right. }
  unfold run_all_checks. split.
  - intros H. apply G1.
    destruct (run_each w self (checks self)); cbn [bindR] in H;
      [discriminate|now inversion H].
  - intros [cs1 [c [cs2 [H [H1 H2]]]]]. rewrite H.
    now rewrite (G2 cs1 c cs2 H1 H2).
Qed.

Lemma define_checks_points :
  Forall (fun c => 10 <= points c)%Z _define_checks /\
  sumZ (map points _define_checks) = 100%Z.
Proof.
  split; [|reflexivity].
  unfold _define_checks. repeat constructor; cbn [points]; lia.
Qed.

Lemma define_checks_critical (c : VulnerabilityCheck) :
  In c _define_checks -> severity c = CRITICAL -> (15 <= points c)%Z.
Proof.
  unfold _define_checks. cbn [In].
  intros [<-|[<-|[<-|[<-|[<-|[<-|[<-|[]]]]]]]]; cbn [severity points];
    intros H; try discriminate; lia.
Qed.

(** What a run of the built-in profile earns: 100 points when every
    outcome is PASS, and at most 100 less the points of any outcome that
    is not. *)
Lemma builtin_earned (w : World) (base_path : string)
    (after : SecurityVerifier) :
  run_all_checks w (new base_path) = Ok after ->
  points_total (calculate_score after) = 100%Z /\
  (forallb (is_result PASS) (outcomes after) = true ->
   points_earned (calculate_score after) = 100%Z) /\
  (forall o, In o (outcomes after) -> is_result PASS o = false ->
             In (check o) _define_checks /\
             (points_earned (calculate_score after) + points (check o)
              <= 100)%Z).
Proof.
  intros R. destruct (run_all_checks_outcomes w _ after R) as [C [E M]].
  cbn [new checks] in C, M.
  destruct define_checks_points as [P T].
  unfold calculate_score. cbn [points_total points_earned].
  fold (points_with PASS (outcomes after)).
  assert (S : sumZ (map (fun o => points (check o)) (outcomes after))
              = 100%Z) by (rewrite <- map_map, M; exact T).
  split; [rewrite C; exact T|]. split.
  - intros A. now rewrite all_pass_earned.
  - intros o Hin Hr. split; [rewrite <- M; now apply in_map|].
    rewrite <- S. apply earned_without; [|assumption|assumption].
    rewrite M. eapply Forall_impl; [|exact P]. cbn. intros; lia.
Qed.

(** [main] on the built-in profile: the exit status is 0 when each of
    the seven outcomes is PASS and 1 otherwise (a FAIL or a SKIP); when
    the run raises, so does [main]. *)
Theorem main_exit_status (w : World) (base_path : string) :
  match run_all_checks w (new base_path) with
  | Ok after =>
      main w base_path
      = Ok (if forallb (is_result PASS) (outcomes after) then 0 else 1)%Z
      /\ length (outcomes after) = 7%nat
  | Raise e => main w base_path = Raise e
  end.
Proof.
  unfold main.
  destruct (run_all_checks w (new base_path)) as [after|e] eqn:R;
    cbn [bindR]; [|reflexivity].
  destruct (builtin_earned w base_path after R) as [T [A B]].
  destruct (run_all_checks_outcomes w _ after R) as [_ [_ M]].
  split; [|rewrite <- (length_map check), M; reflexivity].
  pose proof (score_percentage_ge after 100 eq_refl) as G.
  change (inject_Z 100) with 100%Q in G.
  destruct (forallb (is_result PASS) (outcomes after)) eqn:F.
  - specialize (A eq_refl).
    destruct (Qle_bool 100 (percentage (calculate_score after)));
      [reflexivity|].
    assert (false = true); [|discriminate]. apply G. lia.
  - apply forallb_false_In in F. destruct F as [o [Hin Hr]].
    destruct (B o Hin Hr) as [Hc Hb].
    destruct define_checks_points as [P _].
    rewrite Forall_forall in P. specialize (P _ Hc).
    destruct (Qle_bool 100 (percentage (calculate_score after)));
      [|reflexivity].
    destruct (proj1 G eq_refl). lia.
Qed.

Lemma result_line_excellent (q : Q) :
  result_line q
  = "RESULT: EXCELLENT - All critical vulnerabilities addressed!" ->
  Qle_bool 90 q = true.
Proof.
  unfold result_line. destruct (Qle_bool 90 q); [reflexivity|].
  destruct (Qle_bool 70 q); [discriminate|].
  destruct (Qle_bool 50 q); discriminate.
Qed.

(** The result line "EXCELLENT - All critical vulnerabilities
    addressed!" of the built-in profile is right: with a score of 90 or
    more each check of CRITICAL severity has passed. *)
Theorem excellent_means_criticals_fixed (w : World) (base_path : string)
    (after : SecurityVerifier) :
  run_all_checks w (new base_path) = Ok after ->
  result_text (generate_report after)
  = "RESULT: EXCELLENT - All critical vulnerabilities addressed!" ->
  forall o, In o (outcomes after) ->
            severity (check o) = CRITICAL -> result o = PASS.
Proof.
  intros R V o Hin Hs.
  destruct (builtin_earned w base_path after R) as [T [_ B]].
  apply result_line_excellent in V.
  change 90%Q with (inject_Z 90) in V.
  apply (score_percentage_ge after 90 eq_refl) in V.
  destruct V as [_ V]. rewrite T in V.
  destruct (is_result PASS o) eqn:Hr.
  - destruct o as [c [] m]; cbn in Hr; try discriminate. reflexivity.
  - destruct (B o Hin Hr) as [Hc Hb].
    pose proof (define_checks_critical _ Hc Hs). lia.
Qed.

Lemma by_severity_Permutation (os : list CheckOutcome) :
  Permutation
    (filter (fun o => severity_eqb (severity (check o)) CRITICAL) os ++
     filter (fun o => severity_eqb (severity (check o)) HIGH) os ++
     filter (fun o => severity_eqb (severity (check o)) MEDIUM) os ++
     filter (fun o => severity_eqb (severity (check o)) LOW) os)%list
    os.
Proof.
  induction os as [|o os IH]; [constructor|].
  cbn [filter]. destruct (severity (check o)); cbn [severity_eqb].
  - cbn [app]. now constructor.
  - apply Permutation_sym, Permutation_cons_app. now symmetry.
  - rewrite app_assoc. apply Permutation_sym, Permutation_cons_app.
    rewrite <- app_assoc. now symmetry.
  - rewrite !app_assoc. apply Permutation_sym, Permutation_cons_app.
    rewrite <- !app_assoc. now symmetry.
Qed.

Lemma flat_map_severity_order {A : Type} (g : Severity -> list A) :
  flat_map g severity_order
  = (g CRITICAL ++ g HIGH ++ g MEDIUM ++ g LOW)%list.
Proof. unfold severity_order. cbn [flat_map]. now rewrite app_nil_r. Qed.

Lemma group_outcomes (s : Severity) (os : list CheckOutcome) :
  flat_map snd (match os with [] => [] | _ => [(s, os)] end) = os.
Proof. destruct os; cbn [flat_map snd]; [reflexivity|apply app_nil_r]. Qed.

Lemma filter_nil_existsb {A : Type} (p : A -> bool) (xs : list A) :
  existsb p xs = match filter p xs with [] => false | _ => true end.
Proof.
  induction xs as [|x xs IH]; [reflexivity|].
  cbn [existsb filter]. now destruct (p x).
Qed.

Lemma shown_earned (os : list CheckOutcome) :
  sumZ (map (fun o => fst (points_shown o)) os) = points_with PASS os.
Proof.
  unfold points_with.
  induction os as [|o os IH]; [reflexivity|].
  cbn [map filter]. rewrite sumZ_cons, IH.
  unfold points_shown. cbn [fst].
  destruct (is_result PASS o); cbn [map]; rewrite ?sumZ_cons; lia.
Qed.

(** The report lists every outcome once: under the heading of the
    severity of its check, the headings in the order CRITICAL, HIGH,
    MEDIUM, LOW with none that is empty, the outcomes under a heading in
    the order of the run.  The points shown on the lines of the outcomes
    add up to the points earned of the summary, and after
    [run_all_checks] their maxima to the points total. *)
Theorem report_lists_every_outcome (self : SecurityVerifier) :
  Permutation (flat_map snd (severity_groups (generate_report self)))
    (outcomes self) /\
  map fst (severity_groups (generate_report self))
  = filter (fun s => existsb (fun o => severity_eqb (severity (check o)) s)
                       (outcomes self))
      severity_order /\
  Forall (fun g =>
            snd g <> [] /\
            snd g = filter (fun o => severity_eqb (severity (check o))
                                       (fst g))
                      (outcomes self))
    (severity_groups (generate_report self)) /\
  sumZ (map (fun o => fst (points_shown o))
          (flat_map snd (severity_groups (generate_report self))))
  = points_earned (summary (generate_report self)) /\
  (map check (outcomes self) = checks self ->
   sumZ (map (fun o => snd (points_shown o))
           (flat_map snd (severity_groups (generate_report self))))
   = points_total (summary (generate_report self))).
Proof.
  assert (P : Permutation
                (flat_map snd (severity_groups (generate_report self)))
                (outcomes self)).
  { unfold generate_report. cbn [severity_groups].
    rewrite flat_map_severity_order, !flat_map_app, !group_outcomes.
    apply by_severity_Permutation. }
  split; [exact P|]. split; [|split; [|split]].
  - unfold generate_report, severity_order.
    cbn [severity_groups flat_map filter].
    rewrite !filter_nil_existsb.
    repeat match goal with
           | |- context [match ?f with [] => _ | _ :: _ => _ end] =>
               destruct f eqn:?
           end; reflexivity.
  - unfold generate_report, severity_order.
    cbn [severity_groups flat_map].
    repeat match goal with
           | |- context [match ?f with [] => [] | _ :: _ => _ end] =>
               destruct f eqn:?
           end; cbn [app]; repeat constructor; cbn [fst snd];
      try discriminate; congruence.
  - rewrite (sumZ_perm _ _ (Permutation_map _ P)).
    apply shown_earned.
  - intros M. rewrite (sumZ_perm _ _ (Permutation_map _ P)).
    cbn [generate_report summary calculate_score points_total].
    unfold points_shown. cbn [snd]. now rewrite <- M, map_map.
Qed.

(** A workspace in which no file of the profile can be read: the run
    returns with every outcome SKIP and nothing earned, and the report
    ends on "CRITICAL - Many vulnerabilities still present!". *)
Theorem nothing_to_read (w : World) (self : SecurityVerifier) :
  (forall c, In c (checks self) ->
             _read_file w self (file_path c) = Ok None) ->
  exists after,
    run_all_checks w self = Ok after /\
    Forall (fun o => result o = SKIP) (outcomes after) /\
    points_earned (calculate_score after) = 0%Z /\
    Qle_bool 100 (percentage (calculate_score after)) = false /\
    result_text (generate_report after)
    = "RESULT: CRITICAL - Many vulnerabilities still present!".
Proof.
  intros H.
  assert (G : forall cs,
             (forall c, In c cs ->
                        _read_file w self (file_path c) = Ok None) ->
             exists os, run_each w self cs = Ok os /\
                        Forall (fun o => result o = SKIP) os).
  { induction cs as [|c cs IH]; intros Hc; cbn [run_each].
    - exists []. split; [reflexivity|constructor].
    - destruct IH as [os [E F]]; [intros; apply Hc; now right|].
      unfold run_check at 1. rewrite (Hc c (or_introl eq_refl)).
      cbn [bindR]. rewrite E. cbn [bindR]. eexists. split; [reflexivity|].
      constructor; [reflexivity|assumption]. }
  destruct (G (checks self) H) as [os [E F]].
  exists {| base_path := base_path self; checks := checks self;
            outcomes := os |}.
  unfold run_all_checks. rewrite E. cbn [bindR].
  split; [reflexivity|]. split; [exact F|].
  assert (Z0 : points_earned
                 (calculate_score
                    {| base_path := base_path self; checks := checks self;
                       outcomes := os |}) = 0%Z).
  { unfold calculate_score. cbn [points_earned outcomes].
    replace (filter (is_result PASS) os) with (@nil CheckOutcome);
      [reflexivity|].
    clear E. induction F as [|o os' Ho F IH]; [reflexivity|].
    cbn [filter]. unfold is_result at 1. rewrite Ho. exact IH. }
  split; [exact Z0|].
  assert (N : forall k, (0 < k)%Z ->
              Qle_bool (inject_Z k)
                (percentage
                   (calculate_score
                      {| base_path := base_path self;
                         checks := checks self; outcomes := os |}))
              = false).
  { intros k Hk.
    destruct (Qle_bool (inject_Z k) _) eqn:Q; [|reflexivity].
    apply (score_percentage_ge _ k Hk) in Q. rewrite Z0 in Q. nia. }
  split; [exact (N 100%Z eq_refl)|].
  pose proof (N 90%Z eq_refl) as N90. pose proof (N 70%Z eq_refl) as N70.
  pose proof (N 50%Z eq_refl) as N50.
  change (inject_Z 90) with 90%Q in N90.
  change (inject_Z 70) with 70%Q in N70.
  change (inject_Z 50) with 50%Q in N50.
  unfold generate_report. cbn [result_text]. unfold result_line.
  now rewrite N90, N70, N50.
Qed.

End FixReport.

(** * Further properties: the buckets of benchmark_evaluation.py *)

Section Buckets.
Import Py PyDict BenchmarkEvaluation.

(** Storing a value under a key changes the sum of a measure over the
    dict by the measure of the new value less that of the old one. *)
Lemma sum_set {V : Type} (f : V -> nat) (k : string) (v : V) (d : dict V) :
  (list_sum (map (fun item => f (snd item)) (set k v d))
   + match get k d with Some old => f old | None => 0 end
   = list_sum (map (fun item => f (snd item)) d) + f v)%nat.
Proof.
  unfold list_sum in *.
  induction d as [|[k' v'] d IH]; cbn [set get map fold_right snd].
  - lia.
  - destruct (k =? k'); cbn [map fold_right snd]; lia.
Qed.

Lemma sum_tally (f : Stats -> nat) (acc : dict Stats) (r : TaskResult) :
  f fresh_stats = 0%nat ->
  (list_sum (map (fun item => f (snd item)) (tally acc r))
   + f (stats_or_fresh (get (get_difficulty r) acc))
   = list_sum (map (fun item => f (snd item)) acc)
     + f (bump (stats_or_fresh (get (get_difficulty r) acc)) r))%nat.
Proof.
  intros F0. unfold tally, mem.
  destruct (get (get_difficulty r) acc) as [s|] eqn:G; cbn [negb].
  - rewrite G. cbn [stats_or_fresh].
    pose proof (sum_set f (get_difficulty r) (bump s r) acc) as H.
    rewrite G in H. exact H.
  - rewrite get_set_same. cbn [stats_or_fresh].
    pose proof (sum_set f (get_difficulty r) (bump fresh_stats r)
                  (set (get_difficulty r) fresh_stats acc)) as H.
    rewrite get_set_same in H.
    pose proof (sum_set f (get_difficulty r) fresh_stats acc) as H'.
    rewrite G in H'. lia.
Qed.

Lemma sum_fold_tally (l : list TaskResult) (acc : dict Stats) :
  list_sum (map (fun item => total (snd item)) (fold_left tally l acc))
  = (list_sum (map (fun item => total (snd item)) acc) + length l)%nat /\
  list_sum (map (fun item => success (snd item)) (fold_left tally l acc))
  = (list_sum (map (fun item => success (snd item)) acc)
     + count get_success l)%nat.
Proof.
  revert acc. induction l as [|r l IH]; intros acc; cbn [fold_left].
  - unfold count. cbn [filter length]. lia.
  - destruct (IH (tally acc r)) as [T S]. rewrite T, S.
    pose proof (sum_tally total acc r eq_refl) as Ht.
    pose proof (sum_tally success acc r eq_refl) as Hs.
    unfold bump in Ht, Hs. cbn [total success] in Ht, Hs.
    unfold count. cbn [filter length].
    destruct (get_success r); cbn [length]; lia.
Qed.

Lemma bucket_of_In (d : string) (l : list TaskResult) (r : TaskResult) :
  In r (bucket_of d l) <-> In r l /\ get_difficulty r = d.
Proof.
  unfold bucket_of. rewrite filter_In, String.eqb_eq. tauto.
Qed.

(** The report accounts for every record once: the buckets are keyed by
    the difficulties that occur, each key once; a bucket holds the
    records of its difficulty, at least one; the totals of the buckets
    add up to the number of records and their successes to the number of
    successes.  An evaluation result without [task_results] is analysed
    as one with none: no bucket, and the advice for tasks that are too
    hard. *)
Theorem analysis_accounts_for_every_record (l : list TaskResult) :
  total_tasks (analyze_results {| task_results_key := Some l |})
  = length l /\
  (successful_tasks (analyze_results {| task_results_key := Some l |})
   + failed_tasks (analyze_results {| task_results_key := Some l |})
   = length l)%nat /\
  list_sum (map (fun item => total (snd item))
              (by_difficulty
                 (analyze_results {| task_results_key := Some l |})))
  = length l /\
  list_sum (map (fun item => success (snd item))
              (by_difficulty
                 (analyze_results {| task_results_key := Some l |})))
  = successful_tasks (analyze_results {| task_results_key := Some l |}) /\
  NoDup (keys (by_difficulty
                 (analyze_results {| task_results_key := Some l |}))) /\
  (forall d,
     In d (keys (by_difficulty
                   (analyze_results {| task_results_key := Some l |})))
     <-> exists r, In r l /\ get_difficulty r = d) /\
  (forall d s,
     In (d, s) (by_difficulty
                  (analyze_results {| task_results_key := Some l |})) ->
     total s = length (bucket_of d l) /\
     success s = count get_success (bucket_of d l) /\
     durations s = map get_duration (bucket_of d l) /\
     (1 <= total s)%nat /\ (success s <= total s)%nat) /\
  analyze_results {| task_results_key := None |}
  = analyze_results {| task_results_key := Some [] |} /\
  by_difficulty (analyze_results {| task_results_key := None |}) = [] /\
  recommendations (analyze_results {| task_results_key := None |})
  = [ "Tasks may be too hard or unclear - review problem statements";
      "Consider simplifying instructions or adding more context" ].
Proof.
  pose proof (NoDup_keys_by_difficulty l) as N.
  assert (B : forall d s,
             In (d, s) (by_difficulty
                          (analyze_results
                             {| task_results_key := Some l |})) ->
             bucket_stats (bucket_of d l) = Some s).
  { intros d s H. apply (In_get d s _ N) in H.
    now rewrite by_difficulty_get in H. }
  split; [reflexivity|]. split; [|split; [|split; [|split; [|split;
    [|split; [|split; [|split]]]]]]].
  - unfold analyze_results.
    cbn [successful_tasks failed_tasks task_results_key].
    pose proof (count_le_length get_success l). lia.
  - unfold analyze_results. cbn [by_difficulty task_results_key].
    rewrite map_map. cbn [snd with_rates total].
    destruct (sum_fold_tally l []) as [T _]. exact T.
  - unfold analyze_results.
    cbn [by_difficulty task_results_key successful_tasks].
    rewrite map_map. cbn [snd with_rates success].
    destruct (sum_fold_tally l []) as [_ S]. exact S.
  - exact N.
  - intros d. pose proof (by_difficulty_get l d) as G. split.
    + intros I.
      destruct (get d (by_difficulty
                         (analyze_results
                            {| task_results_key := Some l |})))
        as [s|] eqn:E.
      * destruct (bucket_of d l) as [|r rs] eqn:Bk; [discriminate|].
        exists r. apply bucket_of_In. rewrite Bk. now left.
      * apply get_None_keys in E. contradiction.
    + intros [r Hr]. apply bucket_of_In in Hr.
      destruct (in_dec string_dec d
                  (keys (by_difficulty
                           (analyze_results
                              {| task_results_key := Some l |}))))
        as [I|I]; [exact I|].
      apply get_None_keys in I. rewrite I in G.
      destruct (bucket_of d l); [contradiction|discriminate].
  - intros d s H. apply B in H. unfold bucket_stats in H.
    destruct (bucket_of d l) as [|r rs] eqn:E; [discriminate|].
    inversion H; subst. cbn [total success durations].
    split; [reflexivity|]. split; [reflexivity|]. split; [reflexivity|].
    split; [lia|apply (count_le_length get_success (r :: rs))].
  - reflexivity.
  - reflexivity.
  - vm_compute. reflexivity.
Qed.

End Buckets.

(** * The further properties at sample inputs *)

(** The outcomes of [half_passed] in the other order. *)
Lemma score_order_independent_witness :
  VerifySolution.total (VerifySolution._calculate_score Examples.half_passed)
  = VerifySolution.total
      (VerifySolution._calculate_score (rev Examples.half_passed)) /\
  VerifySolution.overall_status
    (VerifySolution._calculate_score Examples.half_passed)
  = VerifySolution.overall_status
      (VerifySolution._calculate_score (rev Examples.half_passed)).
Proof.
  destruct (score_order_independent
              Examples.half_passed (rev Examples.half_passed)
              (Permutation_rev Examples.half_passed))
    as [T [_ [_ [_ [_ [_ [_ S]]]]]]].
  split; assumption.
Defined.

(** A file name is no command: the shell is not asked. *)
Lemma shell_only_for_commands_witness :
  VerifySolution._execute_check
    (VerifySolution.with_shell Examples.no_canary_world Examples.stuck_shell)
    "output_contains" "analysis.txt" "502"
  = VerifySolution._execute_check Examples.no_canary_world
      "output_contains" "analysis.txt" "502".
Proof.
  apply (shell_only_for_commands
           Examples.no_canary_world Examples.stuck_shell
           "output_contains" "analysis.txt" "502").
  right. reflexivity.
Defined.

(** [cat analysis.txt] prints the status code; the files play no part. *)
Lemma command_output_decides_witness :
  VerifySolution.passed
    (VerifySolution._execute_check Examples.no_canary_world
       "output_contains" "cat analysis.txt" "502")
  = Py.truthy ("status_code: 502" ++ "")
    && Py.contains
         (VerifySolution.str_lower Examples.no_canary_world "502")
         (VerifySolution.str_lower Examples.no_canary_world
            ("status_code: 502" ++ ""))
  /\
  forall exists_ read,
    VerifySolution._execute_check
      (VerifySolution.with_files Examples.no_canary_world exists_ read)
      "output_contains" "cat analysis.txt" "502"
    = VerifySolution._execute_check Examples.no_canary_world
        "output_contains" "cat analysis.txt" "502".
Proof.
  apply (command_output_decides Examples.no_canary_world
           "cat analysis.txt" "502" "status_code: 502" "");
    reflexivity.
Defined.

Lemma expected_case_insensitive_witness :
  VerifySolution.passed
    (VerifySolution._execute_check Examples.no_canary_world
       "output_contains" "analysis.txt" "STATUS_CODE")
  = VerifySolution.passed
      (VerifySolution._execute_check Examples.no_canary_world
         "output_contains" "analysis.txt" "status_code").
Proof.
  apply (expected_case_insensitive Examples.no_canary_world
           "analysis.txt" "STATUS_CODE" "status_code").
  reflexivity.
Defined.

(** The complete solution passes, and its canary token is in a file. *)
Lemma pass_guarantees_witness :
  (forall canary,
     VerifySolution.canary_token Examples.canary_task = Some canary ->
     canary <> "" ->
     exists path content pre post,
       VerifySolution.reaches
         (VerifySolution.solution_tree Examples.complete_world) path
         (VerifySolution.RegularFile (Py.Ok content)) /\
       content = pre ++ canary ++ post) /\
  (1 <= VerifySolution.passed_checks
          (VerifySolution.verify Examples.complete_world
             Examples.canary_task))%nat /\
  (7 * VerifySolution.total
         (VerifySolution.verify Examples.complete_world Examples.canary_task)
   <= 10 * VerifySolution.passed_checks
             (VerifySolution.verify Examples.complete_world
                Examples.canary_task))%nat.
Proof.
  apply (pass_guarantees Examples.complete_world Examples.canary_task).
  reflexivity.
Defined.

(** The built-in profile with [config.py] missing: one check is skipped. *)
Lemma score_after_run_witness :
  VerifyFixes.run_all_checks Examples.config_missing_world
    (VerifyFixes.new "/repo")
  = Py.Ok (Examples.audit Examples.config_missing_world) /\
  (VerifyFixes.passed
     (VerifyFixes.calculate_score
        (Examples.audit Examples.config_missing_world))
   + VerifyFixes.failed
       (VerifyFixes.calculate_score
          (Examples.audit Examples.config_missing_world))
   + VerifyFixes.skipped
       (VerifyFixes.calculate_score
          (Examples.audit Examples.config_missing_world))
   = VerifyFixes.total_checks
       (VerifyFixes.calculate_score
          (Examples.audit Examples.config_missing_world)))%nat /\
  VerifyFixes.skipped
    (VerifyFixes.calculate_score
       (Examples.audit Examples.config_missing_world)) = 1%nat.
Proof.
  assert (R : VerifyFixes.run_all_checks Examples.config_missing_world
                (VerifyFixes.new "/repo")
              = Py.Ok (Examples.audit Examples.config_missing_world))
    by reflexivity.
  destruct (score_after_run Examples.config_missing_world
              (VerifyFixes.new "/repo")
              (Examples.audit Examples.config_missing_world) R)
    as [A [B _]].
  split; [exact R|]. split; [exact A|]. rewrite B. reflexivity.
Defined.

(** With only the bulk lookup left the score is 90: the result line
    reads EXCELLENT, and the four critical checks have passed. *)
Lemma excellent_means_criticals_fixed_witness :
  VerifyFixes.result_text
    (VerifyFixes.generate_report
       (Examples.audit Examples.bulk_lookup_left_world))
  = "RESULT: EXCELLENT - All critical vulnerabilities addressed!" /\
  VerifyFixes.failed
    (VerifyFixes.calculate_score
       (Examples.audit Examples.bulk_lookup_left_world)) = 1%nat /\
  forall o,
    In o (VerifyFixes.outcomes
            (Examples.audit Examples.bulk_lookup_left_world)) ->
    VerifyFixes.severity (VerifyFixes.check o) = VerifyFixes.CRITICAL ->
    VerifyFixes.result o = VerifyFixes.PASS.
Proof.
  split; [vm_compute; reflexivity|]. split; [reflexivity|].
  apply (excellent_means_criticals_fixed
           Examples.bulk_lookup_left_world "/repo"
           (Examples.audit Examples.bulk_lookup_left_world)).
  - reflexivity.
  - vm_compute. reflexivity.
Defined.

(** The built-in profile in a checkout without its files. *)
Lemma nothing_to_read_witness :
  exists after,
    VerifyFixes.run_all_checks Examples.bare_world (VerifyFixes.new "/repo")
    = Py.Ok after /\
    Forall (fun o => VerifyFixes.result o = VerifyFixes.SKIP)
      (VerifyFixes.outcomes after) /\
    VerifyFixes.points_earned (VerifyFixes.calculate_score after) = 0%Z /\
    Qle_bool 100 (VerifyFixes.percentage (VerifyFixes.calculate_score after))
    = false /\
    VerifyFixes.result_text (VerifyFixes.generate_report after)
    = "RESULT: CRITICAL - Many vulnerabilities still present!".
Proof.
  apply (nothing_to_read Examples.bare_world (VerifyFixes.new "/repo")).
  intros c _. reflexivity.
Defined.
